(** * The Reaktoro tutorial notebooks: syntax, execution and checked properties

    The repository consists of four Jupyter notebooks under [tutorial/].
    Their code cells are short Python scripts that drive the external
    Reaktoro library (and numpy / matplotlib).  This development

    - transcribes the code cells of the four notebooks into an abstract
      syntax for the fragment of Python they are written in ([Module Py],
      [Module Notebooks]);
    - defines the static analyses the properties speak about
      ([Module Static]);
    - gives the code an executable semantics over an arbitrary host (the
      Python runtime together with the imported libraries), with explicit
      state passing, exceptions as results and a log of every host
      operation ([Module Sem]), and two concrete hosts to run it on
      ([Module Hosts]);
    - names what a run leaves behind and what it asks of the library
      ([Module Flow], [Module Trace]);
    - proves how exceptions travel through the interpreter
      ([Module Propagation]), the properties that can be read off the code
      ([Module Shape]) and the properties of the runs ([Module Runs],
      [Module Outcomes], [Module Cells], [Module Columns]). *)

From Stdlib Require Import List String Ascii ZArith QArith Bool Arith.
Import ListNotations.
Set Warnings "-register-all".
Local Close Scope Q_scope.
Local Open Scope string_scope.
Local Open Scope list_scope.

(* ================================================================= *)
(** ** Python syntax *)

Module Py.

Inductive binop : Type := Add | Sub | Mul | Div.

(** Expressions.  A call carries its arguments in source order; a keyword
    argument [k=e] is the element [EKeyword k e] of that list.  A float
    literal is kept as written: [EFloat m e] is the decimal [m * 10^e]. *)
Inductive expr : Type :=
| EName (x : string)
| EInt (z : Z)
| EFloat (m : Z) (e : Z)
| EStr (s : string)
| EFStr (parts : list expr)
| EList (es : list expr)
| ETuple (es : list expr)
| EAttr (e : expr) (a : string)
| ECall (f : expr) (args : list expr)
| EKeyword (k : string) (e : expr)
| EBin (op : binop) (a b : expr)
| ESubscript (e : expr) (idx : expr)
| ESliceAll
| ELambda (params : list string) (body : expr)
| EAwait (e : expr).

(** Assignment targets: a name, or a flat sequence of names
    ([a, b = ...] and [[a, b] = ...]). *)
Inductive target : Type :=
| TName (x : string)
| TSeq (xs : list string).

Inductive stmt : Type :=
| SImportStar (m : string)
| SImportAs (m : string) (a : string)
| SExpr (e : expr)
| SAssign (t : target) (e : expr)
| SIf (c : expr) (th el : list stmt)
| SWhile (c : expr) (body : list stmt)
| SFor (t : target) (it : expr) (body : list stmt)
| STry (body handler : list stmt)
| SWith (e : expr) (body : list stmt)
| SDef (async : bool) (f : string) (params : list string) (body : list stmt)
| SClass (c : string) (body : list stmt).

(** A notebook is a sequence of cells; only code cells carry statements. *)
Inductive cell : Type :=
| Markdown
| Code (body : list stmt).

Definition notebook : Type := list cell.

Definition cell_code (c : cell) : list stmt :=
  match c with
  | Markdown => []
  | Code body => body
  end.

(** The statements of a notebook in execution order (cell by cell). *)
Definition code (nb : notebook) : list stmt := flat_map cell_code nb.

(** Shorthands used when transcribing the notebooks. *)
Definition var (x : string) : expr := EName x.
Definition call (f : string) (args : list expr) : expr := ECall (EName f) args.
Definition meth (recv : expr) (m : string) (args : list expr) : expr :=
  ECall (EAttr recv m) args.
Definition kw (k : string) (e : expr) : expr := EKeyword k e.
Definition assign (x : string) (e : expr) : stmt := SAssign (TName x) e.

End Py.

Import Py.

(* ================================================================= *)
(** ** The four notebooks *)

Module Notebooks.

Definition nl : string := String (ascii_of_nat 10) EmptyString.

(** Lines joined by a newline (no trailing newline). *)
Fixpoint unlines (ls : list string) : string :=
  match ls with
  | [] => ""
  | [l] => l
  | l :: rest => l ++ nl ++ unlines rest
  end.

(* ----------------------------------------------------------------- *)
(** *** tutorial/eq.evian-water-analysis.ipynb *)

(** The molar amount of an ion as the notebook writes it:
    [mg * 1e-6 / system.species(queried).molarMass()]. *)
Definition ion_amount (mg : expr) (queried : string) : expr :=
  EBin Div (EBin Mul mg (EFloat 1 (-6)))
      (meth (meth (var "system") "species" [EStr queried]) "molarMass" []).

Definition add_ion (ion : string) (mg : expr) (queried : string) : stmt :=
  SExpr (meth (var "problem") "add" [EStr ion; ion_amount mg queried; EStr "mol"]).

(** Cell at lines 100-115. *)
Definition evian_ions : list stmt :=
  [ add_ion "Ca++" (EInt 80) "Ca++";
    add_ion "Cl-" (EFloat 68 (-1)) "Cl-";
    add_ion "HCO3-" (EInt 350) "HCO3-";
    add_ion "Mg++" (EInt 26) "Mg++";
    add_ion "NO3-" (EFloat 37 (-1)) "NO3-";
    add_ion "K+" (EInt 1) "K+";
    add_ion "Na+" (EFloat 65 (-1)) "Na+";
    add_ion "SO4--" (EFloat 126 (-1)) "S2O4--" ].

(** Line 132. *)
Definition add_silica : stmt :=
  SExpr (meth (var "problem") "add"
           [EStr "Si";
            EBin Div (EBin Mul (EInt 15) (EFloat 1 (-3))) (EFloat 280855 (-4));
            EStr "mol"]).

(** Lines 198, 204 and 210: [SR_x = lnQ_x.val - lnK_x.val]. *)
Definition saturation_ratio (mineral : string) : stmt :=
  assign ("SR_" ++ mineral)
    (EBin Sub (EAttr (var ("lnQ_" ++ mineral)) "val")
              (EAttr (var ("lnK_" ++ mineral)) "val")).

(** The four statements that compute one saturation index
    (lines 194-199, 202-205, 208-211). *)
Definition saturation_index (mineral : string) : list stmt :=
  [ assign ("lnK_" ++ mineral)
      (meth (var ("reaction_" ++ mineral)) "lnEquilibriumConstant" [var "props"]);
    assign ("lnQ_" ++ mineral)
      (meth (var ("reaction_" ++ mineral)) "lnReactionQuotient" [var "props"]);
    saturation_ratio mineral;
    assign ("SI_" ++ mineral) (call "exp" [var ("SR_" ++ mineral)]) ].

(** The raw string literal bound to [ex1] (lines 264-287), parentheses
    included. *)
Definition ex1_text : string :=
  unlines
    [ "(";
      "SOLUTION 1";
      "    temp      25";
      "    pH        7.2";
      "    pe        4";
      "    redox     pe";
      "    units     mg/kgw";
      "    density   1";
      "    C(4)      350";
      "    Ca        80";
      "    Cl        6.8";
      "    K         1";
      "    Mg        26";
      "    N(5)      3.7";
      "    Na        6.5";
      "    S(6)      12.6";
      "    Si        15";
      "    -water    1 # kg";
      "EQUILIBRIUM_PHASES 1";
      "    Dolomite 0 0";
      "    Calcite 0 0";
      "    Quartz 0 0";
      "end";
      ")" ].

(** Cells at lines 264-287, 303 and 321. *)
Definition evian_phreeqc : list cell :=
  [ Code [ assign "ex1" (EStr ex1_text) ];
    Markdown;
    Code [ assign "phreeqc" (call "Phreeqc" [EStr "../databases/phreeqc/phreeqc.dat"]) ];
    Markdown;
    Code [ SExpr (meth (var "phreeqc") "execute" [var "ex1"]) ] ].

(** Cells up to line 82: the chemical system, the reactions and the
    equilibrium problem. *)
Definition evian_setup : list cell :=
  [ Markdown;
    (* lines 25-37 *)
    Code [ SImportStar "reaktoro";
           SImportStar "math";
           assign "db" (call "Database" [EStr "supcrt98.xml"]);
           assign "editor" (call "ChemicalEditor" [var "db"]);
           SExpr (meth (var "editor") "addAqueousPhaseWithElements"
                    [EStr "C Ca Cl H K Mg N Na O S Si"]);
           SExpr (meth (var "editor") "addMineralPhase" [EStr "Calcite"]);
           SExpr (meth (var "editor") "addMineralPhase" [EStr "Dolomite"]);
           SExpr (meth (var "editor") "addMineralPhase" [EStr "Quartz"]);
           assign "system" (call "ChemicalSystem" [var "editor"]) ];
    Markdown;
    (* lines 54-61 *)
    Code [ assign "reaction_equation_calcite"
             (call "ReactionEquation" [EStr "Calcite + H+ = Ca++ + HCO3-"]);
           assign "reaction_equation_dolomite"
             (call "ReactionEquation" [EStr "Dolomite + 2*H+ = Ca++ + Mg++ + 2*HCO3-"]);
           assign "reaction_equation_quartz"
             (call "ReactionEquation" [EStr "Quartz + H2O(l) = H+ + HSiO3-"]);
           assign "reaction_calcite"
             (call "Reaction" [var "reaction_equation_calcite"; var "system"]);
           assign "reaction_dolomite"
             (call "Reaction" [var "reaction_equation_dolomite"; var "system"]);
           assign "reaction_quartz"
             (call "Reaction" [var "reaction_equation_quartz"; var "system"]) ];
    Markdown;
    (* lines 78-82 *)
    Code [ assign "problem" (call "EquilibriumInverseProblem" [var "system"]);
           SExpr (meth (var "problem") "setTemperature" [EInt 25; EStr "celsius"]);
           SExpr (meth (var "problem") "setPressure" [EFloat 101325 (-5); EStr "bar"]);
           SExpr (meth (var "problem") "add" [EStr "H2O"; EFloat 10 (-1); EStr "kg"]) ];
    Markdown ].

(** Cells from line 132 to line 245: silica, the minerals and pH, the
    equilibrium calculation, saturation and stability indices. *)
Definition evian_equilibrium : list cell :=
  [ Markdown;
    (* line 132 *)
    Code [ add_silica ];
    Markdown;
    (* lines 148-151 *)
    Code [ SExpr (meth (var "problem") "add" [EStr "Calcite"; EFloat 0 (-1); EStr "mol"]);
           SExpr (meth (var "problem") "add" [EStr "Dolomite"; EFloat 0 (-1); EStr "mol"]);
           SExpr (meth (var "problem") "add" [EStr "Quartz"; EFloat 0 (-1); EStr "mol"]);
           SExpr (meth (var "problem") "pH" [EFloat 72 (-1); EStr "HCl"; EStr "NaOH"]) ];
    Markdown;
    (* lines 169-170 *)
    Code [ assign "state" (call "equilibrate" [var "problem"]);
           SExpr (call "print" [var "state"]) ];
    Markdown;
    (* lines 192-215 *)
    Code ([ assign "props" (meth (var "state") "properties" []) ]
          ++ saturation_index "calcite"
          ++ saturation_index "dolomite"
          ++ saturation_index "quartz"
          ++ [ SExpr (call "print" [EStr "Saturation Index (Calcite) = "; var "SI_calcite"]);
               SExpr (call "print" [EStr "Saturation Index (Dolomite) = "; var "SI_dolomite"]);
               SExpr (call "print" [EStr "Saturation Index (Quartz) = "; var "SI_quartz"]) ]);
    Markdown;
    (* lines 235-245 *)
    Code [ assign "phase_stability_indices" (meth (var "state") "phaseStabilityIndices" []);
           assign "calcite_phase_index" (meth (var "system") "indexPhase" [EStr "Calcite"]);
           assign "dolomite_phase_index" (meth (var "system") "indexPhase" [EStr "Dolomite"]);
           assign "quartz_phase_index" (meth (var "system") "indexPhase" [EStr "Quartz"]);
           SExpr (call "print"
                    [EStr "Stability Index (Calcite)  = ";
                     ESubscript (var "phase_stability_indices") (var "calcite_phase_index")]);
           SExpr (call "print"
                    [EStr "Stability Index (Dolomite) = ";
                     ESubscript (var "phase_stability_indices") (var "dolomite_phase_index")]);
           SExpr (call "print"
                    [EStr "Stability Index (Quartz)   = ";
                     ESubscript (var "phase_stability_indices") (var "quartz_phase_index")]) ];
    Markdown ].

Definition eq_evian_water_analysis : notebook :=
  evian_setup
  ++ [ (* lines 100-115 *) Code evian_ions ]
  ++ evian_equilibrium
  ++ evian_phreeqc
  ++ [ Markdown;
       (* line 339 *)
       Code [ assign "system" (call "ChemicalSystem" [var "phreeqc"]) ];
       Markdown;
       (* line 356 *)
       Code [ assign "state" (meth (var "phreeqc") "state" [var "system"]) ];
       Markdown;
       (* line 373 *)
       Code [ SExpr (call "print" [var "state"]) ] ].

(* ----------------------------------------------------------------- *)
(** *** tutorial/kin.calcite-hcl.ipynb *)

(** Line 191. *)
Definition kin_equilibrate : stmt :=
  assign "state0" (call "equilibrate" [var "problem"]).

(** Everything between the [equilibrate] call and the [path.solve] call
    (lines 215-287). *)
Definition kin_between : list cell :=
  [ Markdown;
    (* line 215 *)
    Code [ SExpr (meth (var "state0") "setSpeciesMass" [EStr "Calcite"; EInt 100; EStr "g"]) ];
    Markdown;
    (* lines 235-236 *)
    Code [ assign "path" (call "KineticPath" [var "reactions"]);
           SExpr (meth (var "path") "setPartition" [var "partition"]) ];
    Markdown;
    (* lines 253-260 *)
    Code [ assign "output" (meth (var "path") "output" []);
           SExpr (meth (var "output") "filename" [EStr "results.txt"]);
           SExpr (meth (var "output") "add" [EStr "time(units=minute)"]);
           SExpr (meth (var "output") "add"
                    [EStr "elementMolality(Ca units=mmolal)"; EStr "Ca [mmolal]"]);
           SExpr (meth (var "output") "add"
                    [EStr "phaseMass(Calcite units=g)"; EStr "Calcite [units=g]"]);
           SExpr (meth (var "output") "add"
                    [EStr "speciesMolality(Ca++ units=mmolal)"; EStr "Ca++ [mmol]"]);
           SExpr (meth (var "output") "add"
                    [EStr "speciesMolality(HCO3- units=mmolal)"; EStr "HCO3- [mmol]"]);
           SExpr (meth (var "output") "add" [EStr "pH"]) ];
    Markdown ].

(** Line 287. *)
Definition kin_times : stmt :=
  SAssign (TSeq ["t0"; "t1"]) (ETuple [EFloat 0 (-1); EFloat 50 (-1)]).

(** Line 288. *)
Definition kin_solve : stmt :=
  SExpr (meth (var "path") "solve" [var "state0"; var "t0"; var "t1"; EStr "minute"]).

Definition plot_figure (x y : expr) (label : string) : list stmt :=
  [ SExpr (meth (var "plt") "figure" []);
    SExpr (meth (var "plt") "plot" [x; y; kw "label" (EStr label)]) ].

(** Cells up to line 161: the chemical and reaction systems, the
    partition and the equilibrium problem. *)
Definition kin_setup : list cell :=
  [ Markdown;
    (* line 24 *)
    Code [ SImportStar "reaktoro" ];
    Markdown;
    (* lines 46-48 *)
    Code [ assign "editor" (call "ChemicalEditor" []);
           SExpr (meth (var "editor") "addAqueousPhaseWithElementsOf" [EStr "H2O HCl CaCO3"]);
           SExpr (meth (var "editor") "addMineralPhase" [EStr "Calcite"]) ];
    Markdown;
    (* lines 80-84 *)
    Code [ SExpr
             (meth
                (meth
                   (meth
                      (meth
                         (meth (var "editor") "addMineralReaction" [EStr "Calcite"])
                         "setEquation" [EStr "Calcite = Ca++ + CO3--"])
                      "addMechanism" [EStr "logk = -5.81 mol/(m2*s); Ea = 23.5 kJ/mol"])
                   "addMechanism"
                   [EStr "logk = -0.30 mol/(m2*s); Ea = 14.4 kJ/mol; a[H+] = 1.0"])
                "setSpecificSurfaceArea" [EInt 10; EStr "cm2/g"]) ];
    Markdown;
    (* lines 108-109 *)
    Code [ assign "system" (call "ChemicalSystem" [var "editor"]);
           assign "reactions" (call "ReactionSystem" [var "editor"]) ];
    Markdown;
    (* lines 135-136 *)
    Code [ assign "partition" (call "Partition" [var "system"]);
           SExpr (meth (var "partition") "setKineticSpecies" [EList [EStr "Calcite"]]) ];
    Markdown;
    (* lines 156-161 *)
    Code [ assign "problem" (call "EquilibriumProblem" [var "system"]);
           SExpr (meth (var "problem") "setPartition" [var "partition"]);
           SExpr (meth (var "problem") "setTemperature" [EInt 30; EStr "celsius"]);
           SExpr (meth (var "problem") "setPressure" [EInt 1; EStr "bar"]);
           SExpr (meth (var "problem") "add" [EStr "H2O"; EInt 1; EStr "kg"]);
           SExpr (meth (var "problem") "add" [EStr "HCl"; EInt 1; EStr "mmol"]) ];
    Markdown ].

Definition kin_calcite_hcl : notebook :=
  kin_setup
  ++ [ (* line 191 *) Code [ kin_equilibrate ] ]
  ++ kin_between
  ++ [ (* lines 287-288 *)
       Code [ kin_times; kin_solve ];
       Markdown;
       (* line 307 *)
       Code [ SImportAs "matplotlib.pyplot" "plt" ];
       Markdown;
       (* lines 324-326 *)
       Code [ assign "filearray"
                (meth (var "numpy") "loadtxt" [EStr "results.txt"; kw "skiprows" (EInt 1)]);
              assign "data" (EAttr (var "filearray") "T");
              SAssign (TSeq ["time_indx"; "ca_elem_indx"; "calcite_indx";
                             "ca_species_indx"; "hco3_indx"; "ph_indx"])
                (meth (var "numpy") "arange" [EInt 0; EInt 6]) ];
       Markdown;
       (* lines 343-350 *)
       Code ([ assign "time" (ESubscript (var "data") (ETuple [var "time_indx"; ESliceAll])) ]
             ++ plot_figure (var "time") (ESubscript (var "data") (var "ca_elem_indx")) "Ca"
             ++ [ SExpr (meth (var "plt") "xlabel" [EStr "time"]);
                  SExpr (meth (var "plt") "ylabel" [EStr "Amount of Ca [mmolal]"]);
                  SExpr (meth (var "plt") "legend" [kw "loc" (EStr "center right")]);
                  SExpr (meth (var "plt") "tight_layout" []) ]);
       (* lines 359-364 *)
       Code (plot_figure (var "time") (ESubscript (var "data") (var "calcite_indx")) "Calcite"
             ++ [ SExpr (meth (var "plt") "xlabel" [EStr "time"]);
                  SExpr (meth (var "plt") "ylabel" [EStr "Mass of Calcite [g]"]);
                  SExpr (meth (var "plt") "legend" [kw "loc" (EStr "center right")]);
                  SExpr (meth (var "plt") "tight_layout" []) ]);
       (* lines 373-378 *)
       Code (plot_figure (var "time") (ESubscript (var "data") (var "ph_indx")) "pH"
             ++ [ SExpr (meth (var "plt") "xlabel" [EStr "time"]);
                  SExpr (meth (var "plt") "ylabel" [EStr "ph"]);
                  SExpr (meth (var "plt") "legend" [kw "loc" (EStr "center right")]);
                  SExpr (meth (var "plt") "tight_layout" []) ]);
       (* lines 387-393 *)
       Code (plot_figure (var "time") (ESubscript (var "data") (var "ca_species_indx")) "Ca++"
             ++ [ SExpr (meth (var "plt") "plot"
                           [var "time"; ESubscript (var "data") (var "hco3_indx");
                            kw "label" (EStr "HCO3-")]);
                  SExpr (meth (var "plt") "xlabel" [EStr "time"]);
                  SExpr (meth (var "plt") "ylabel" [EStr "Molality [mmolal]"]);
                  SExpr (meth (var "plt") "legend" [kw "loc" (EStr "center right")]);
                  SExpr (meth (var "plt") "tight_layout" []) ]) ].

(* ----------------------------------------------------------------- *)
(** *** tutorial/eq.equilibriumpath.ipynb *)

Definition eq_equilibriumpath : notebook :=
  [ Markdown;
    (* line 35 *)
    Code [ SImportStar "reaktoro" ];
    Markdown;
    (* line 55 *)
    Code [ assign "editor" (call "ChemicalEditor" []) ];
    Markdown;
    (* lines 74-77 *)
    Code [ SExpr (meth (var "editor") "addAqueousPhaseWithElements" [EStr "H O Ca C Cl"]);
           SExpr (meth (var "editor") "addMineralPhase" [EStr "Calcite"]);
           assign "system" (call "ChemicalSystem" [var "editor"]) ];
    Markdown;
    (* lines 95-106 *)
    Code [ assign "initial_problem" (call "EquilibriumProblem" [var "system"]);
           SExpr (meth (var "initial_problem") "setTemperature" [EFloat 300 (-1); EStr "celsius"]);
           SExpr (meth (var "initial_problem") "setPressure" [EFloat 10 (-1); EStr "bar"]);
           SExpr (meth (var "initial_problem") "add" [EStr "H2O"; EInt 1; EStr "kg"]);
           SExpr (meth (var "initial_problem") "add" [EStr "CaCO3"; EInt 1; EStr "g"]);
           assign "final_problem" (call "EquilibriumProblem" [var "system"]);
           SExpr (meth (var "final_problem") "setTemperature" [EFloat 300 (-1); EStr "celsius"]);
           SExpr (meth (var "final_problem") "setPressure" [EFloat 10 (-1); EStr "bar"]);
           SExpr (meth (var "final_problem") "add" [EStr "H2O"; EInt 1; EStr "kg"]);
           SExpr (meth (var "final_problem") "add" [EStr "CaCO3"; EInt 1; EStr "g"]);
           SExpr (meth (var "final_problem") "add" [EStr "HCl"; EInt 1; EStr "mmol"]) ];
    Markdown;
    (* lines 124-125 *)
    Code [ assign "initial_state" (call "equilibrate" [var "initial_problem"]);
           assign "final_state" (call "equilibrate" [var "final_problem"]) ];
    Markdown;
    (* line 144 *)
    Code [ assign "path" (call "EquilibriumPath" [var "system"]) ];
    Markdown;
    (* lines 165-172 *)
    Code [ assign "output" (meth (var "path") "output" []);
           SExpr (meth (var "output") "filename" [EStr "result.txt"]);
           SExpr (meth (var "output") "add"
                    [EStr "elementAmount(Cl units=mmol)"; EStr "Cl [mmol]"]);
           SExpr (meth (var "output") "add"
                    [EStr "speciesMolality(CO2(aq) units=mmolal)"; EStr "CO2(aq) [mmol]"]);
           SExpr (meth (var "output") "add"
                    [EStr "speciesMolality(CO3-- units=mmolal)"; EStr "CO3-- [mmol]"]);
           SExpr (meth (var "output") "add"
                    [EStr "elementMolality(Ca units=mmolal)"; EStr "Ca [mmolal]"]);
           SExpr (meth (var "output") "add" [EStr "pH"]);
           SExpr (meth (var "output") "add" [EStr "speciesMass(Calcite units=g)"]) ];
    Markdown;
    (* line 200 *)
    Code [ assign "path" (meth (var "path") "solve" [var "initial_state"; var "final_state"]) ];
    Markdown;
    (* lines 219-220 *)
    Code [ SImportAs "matplotlib.pyplot" "plt";
           SImportAs "numpy" "np" ];
    Markdown;
    (* lines 236-238 *)
    Code [ assign "filearray"
             (meth (var "np") "loadtxt" [EStr "result.txt"; kw "skiprows" (EInt 1)]);
           assign "data" (EAttr (var "filearray") "T");
           SAssign (TSeq ["cl_indx"; "co2aq_indx"; "co3_indx";
                          "ca_indx"; "ph_indx"; "calcite_indx"])
             (meth (var "np") "arange" [EInt 6]) ];
    Markdown;
    (* lines 268-272 *)
    Code (plot_figure (ESubscript (var "data") (var "ph_indx"))
                      (ESubscript (var "data") (var "cl_indx")) "Cl"
          ++ [ SExpr (meth (var "plt") "xlabel" [EStr "pH"]);
               SExpr (meth (var "plt") "ylabel" [EStr "Amount of Cl [mmol]"]);
               SExpr (meth (var "plt") "tight_layout" []) ]);
    Markdown;
    (* lines 290-294 *)
    Code (plot_figure (ESubscript (var "data") (var "cl_indx"))
                      (ESubscript (var "data") (var "ca_indx")) "Ca"
          ++ [ SExpr (meth (var "plt") "xlabel" [EStr "Amount of Cl [mmol]"]);
               SExpr (meth (var "plt") "ylabel" [EStr "Concentration of Ca [mmolal]"]);
               SExpr (meth (var "plt") "tight_layout" []) ]);
    Markdown;
    (* lines 311-317 *)
    Code (plot_figure (ESubscript (var "data") (var "ph_indx"))
                      (ESubscript (var "data") (var "co2aq_indx")) "CO2(aq)"
          ++ [ SExpr (meth (var "plt") "plot"
                        [ESubscript (var "data") (var "ph_indx");
                         ESubscript (var "data") (var "co3_indx");
                         kw "label" (EStr "CO3--")]);
               SExpr (meth (var "plt") "xlabel" [EStr "pH"]);
               SExpr (meth (var "plt") "ylabel" [EStr "Concentration [mmolal]"]);
               SExpr (meth (var "plt") "legend" [kw "loc" (EStr "center right")]);
               SExpr (meth (var "plt") "tight_layout" []) ]);
    Markdown;
    (* lines 334-339 *)
    Code (plot_figure (ESubscript (var "data") (var "cl_indx"))
                      (ESubscript (var "data") (var "calcite_indx")) "Calcite"
          ++ [ SExpr (meth (var "plt") "xlabel" [EStr "HCl [mmol]"]);
               SExpr (meth (var "plt") "ylabel" [EStr "Mass [g]"]);
               SExpr (meth (var "plt") "legend" [kw "loc" (EStr "center right")]);
               SExpr (meth (var "plt") "tight_layout" []) ]) ].

(* ----------------------------------------------------------------- *)
(** *** tutorial/eq.sodium-chloride-solubility-in-water.ipynb *)

Definition eq_sodium_chloride_solubility_in_water : notebook :=
  [ Markdown;
    (* line 18 *)
    Code [ SImportStar "reaktoro" ];
    Markdown;
    (* line 34 *)
    Code [ assign "db" (call "Database" [EStr "supcrt98.xml"]) ];
    Markdown;
    (* lines 50-52 *)
    Code [ assign "editor" (call "ChemicalEditor" [var "db"]);
           SExpr (meth (var "editor") "addAqueousPhaseWithElements" [EStr "H O Na Cl"]);
           SExpr (meth (var "editor") "addMineralPhase" [EStr "Halite"]) ];
    Markdown;
    (* line 68 *)
    Code [ assign "system" (call "ChemicalSystem" [var "editor"]) ];
    Markdown;
    (* line 84 *)
    Code [ SExpr (call "print" [EStr "system = "; var "system"]) ];
    Markdown;
    (* lines 100-104 *)
    Code [ assign "problem" (call "EquilibriumProblem" [var "system"]);
           SExpr (meth (var "problem") "setTemperature" [EInt 25; EStr "celsius"]);
           SExpr (meth (var "problem") "setPressure" [EInt 1; EStr "bar"]);
           SExpr (meth (var "problem") "add" [EStr "H2O"; EFloat 10 (-1); EStr "kg"]);
           SExpr (meth (var "problem") "add" [EStr "NaCl"; EFloat 10 (-1); EStr "mg"]) ];
    Markdown;
    (* line 134 *)
    Code [ assign "state" (call "equilibrate" [var "problem"]) ];
    Markdown;
    (* line 151 *)
    Code [ SExpr (call "print" [EStr "state = "; var "state"]) ];
    Markdown;
    (* lines 169-171 *)
    Code [ SExpr (meth (var "problem") "add" [EStr "NaCl"; EFloat 10 (-1); EStr "kg"]);
           assign "state" (call "equilibrate" [var "problem"]);
           SExpr (call "print" [EStr "state = "; var "state"]) ];
    Markdown;
    (* line 188 *)
    Code [ SExpr (call "print"
                    [EFStr [EStr "Amount of NaCl(s) : ";
                            meth (var "state") "speciesAmount" [EStr "Halite"]]]) ] ].

(** Every notebook of the repository. *)
Definition notebooks : list notebook :=
  [ eq_evian_water_analysis;
    kin_calcite_hcl;
    eq_equilibriumpath;
    eq_sodium_chloride_solubility_in_water ].

End Notebooks.

Import Notebooks.

(* ================================================================= *)
(** ** Static analyses *)

Module Static.

Definition mem (x : string) (l : list string) : bool := existsb (String.eqb x) l.

(** All subexpressions of an expression, itself first, in source order. *)
Fixpoint subexprs (e : expr) : list expr :=
  e ::
  match e with
  | EFStr ps | EList ps | ETuple ps => flat_map subexprs ps
  | EAttr r _ => subexprs r
  | ECall f args => subexprs f ++ flat_map subexprs args
  | EKeyword _ x => subexprs x
  | EBin _ a b => subexprs a ++ subexprs b
  | ESubscript r i => subexprs r ++ subexprs i
  | ELambda _ b => subexprs b
  | EAwait x => subexprs x
  | EName _ | EInt _ | EFloat _ _ | EStr _ | ESliceAll => []
  end.

(** All statements nested in a statement, itself first. *)
Fixpoint substmts (s : stmt) : list stmt :=
  s ::
  match s with
  | SIf _ th el => flat_map substmts th ++ flat_map substmts el
  | STry body handler => flat_map substmts body ++ flat_map substmts handler
  | SWhile _ body | SFor _ _ body | SWith _ body
  | SDef _ _ _ body | SClass _ body => flat_map substmts body
  | SImportStar _ | SImportAs _ _ | SExpr _ | SAssign _ _ => []
  end.

(** The expressions a statement itself carries. *)
Definition own_exprs (s : stmt) : list expr :=
  match s with
  | SExpr e | SAssign _ e | SWith e _ => [e]
  | SIf c _ _ | SWhile c _ => [c]
  | SFor _ it _ => [it]
  | SImportStar _ | SImportAs _ _ | STry _ _ | SDef _ _ _ _ | SClass _ _ => []
  end.

Definition stmt_exprs (s : stmt) : list expr := flat_map subexprs (own_exprs s).

Definition statements (nb : notebook) : list stmt := flat_map substmts (code nb).

Definition expressions (nb : notebook) : list expr :=
  flat_map stmt_exprs (statements nb).

(* ----------------------------------------------------------------- *)
(** *** Shape of the code *)

Definition is_simple (s : stmt) : bool :=
  match s with
  | SImportStar _ | SImportAs _ _ | SExpr _ | SAssign _ _ => true
  | _ => false
  end.

Definition is_loop (s : stmt) : bool :=
  match s with SWhile _ _ | SFor _ _ _ => true | _ => false end.

Definition is_branch (s : stmt) : bool :=
  match s with SIf _ _ _ => true | _ => false end.

Definition is_try (s : stmt) : bool :=
  match s with STry _ _ => true | _ => false end.

Definition is_def (s : stmt) : bool :=
  match s with SDef _ _ _ _ => true | _ => false end.

Definition is_class (s : stmt) : bool :=
  match s with SClass _ _ => true | _ => false end.

Definition is_lambda (e : expr) : bool :=
  match e with ELambda _ _ => true | _ => false end.

Definition is_await (e : expr) : bool :=
  match e with EAwait _ => true | _ => false end.

Definition is_arith (e : expr) : bool :=
  match e with EBin _ _ _ => true | _ => false end.

Definition none {A : Type} (p : A -> bool) (l : list A) : bool :=
  forallb (fun a => negb (p a)) l.

(** No loop, no branch and no function definition ([def] or [lambda]). *)
Definition straight_line (nb : notebook) : bool :=
  none is_loop (statements nb) && none is_branch (statements nb)
  && none is_def (statements nb) && none is_lambda (expressions nb).

(** Only imports, expression statements and assignments. *)
Definition simple_statements (nb : notebook) : bool := forallb is_simple (code nb).

Definition try_free (nb : notebook) : bool := none is_try (statements nb).

Definition defines_nothing (nb : notebook) : bool :=
  none is_def (statements nb) && none is_class (statements nb)
  && none is_lambda (expressions nb).

Definition arithmetic_free (nb : notebook) : bool := none is_arith (expressions nb).

(** The statements in which the notebook itself computes with an
    arithmetic operator. *)
Definition computing_statements (nb : notebook) : list stmt :=
  filter (fun s => existsb is_arith (stmt_exprs s)) (statements nb).

(* ----------------------------------------------------------------- *)
(** *** Names *)

Definition target_names (t : target) : list string :=
  match t with
  | TName x => [x]
  | TSeq xs => xs
  end.

(** Names a statement binds among the notebook's own variables: the
    targets of an assignment, the alias of an import.  Which names a star
    import brings in is decided by the imported module, not by the notebook:
    they are not listed here and are left to the host. *)
Definition binds (s : stmt) : list string :=
  match s with
  | SImportAs _ a => [a]
  | SAssign t _ => target_names t
  | SFor t _ _ => target_names t
  | SDef _ f _ _ => [f]
  | SClass c _ => [c]
  | _ => []
  end.

Definition name_of (e : expr) : list string :=
  match e with EName x => [x] | _ => [] end.

(** Names a statement reads. *)
Definition reads (s : stmt) : list string := flat_map name_of (stmt_exprs s).

Definition bound_names (nb : notebook) : list string :=
  flat_map binds (statements nb).

(** Walking the code in order: the names a statement reads that no earlier
    statement has bound, each once, in the order in which they are first
    read.  A name read before the statement that binds it is among them. *)
Fixpoint reads_unbound (seen found : list string) (l : list stmt) : list string :=
  match l with
  | [] => rev found
  | s :: rest =>
      let fresh :=
        fold_left (fun acc x => if mem x seen || mem x acc then acc else x :: acc)
                  (reads s) found in
      reads_unbound (binds s ++ seen) fresh rest
  end.

Definition unbound_reads (nb : notebook) : list string := reads_unbound [] [] (code nb).

(** Whatever is read before an earlier statement has bound it is bound by
    no statement of the notebook at all. *)
Definition defined_before_use (nb : notebook) : bool :=
  forallb (fun x => negb (mem x (bound_names nb))) (unbound_reads nb).

Definition is_star_import (s : stmt) : bool :=
  match s with SImportStar _ => true | _ => false end.

Fixpoint drop_while {A : Type} (p : A -> bool) (l : list A) : list A :=
  match l with
  | [] => []
  | a :: rest => if p a then drop_while p rest else l
  end.

(** The star imports are the first statements of the notebook. *)
Definition star_imports_first (nb : notebook) : bool :=
  none is_star_import (drop_while is_star_import (code nb)).

Definition imported_modules (nb : notebook) : list string :=
  flat_map (fun s => match s with
                     | SImportStar m | SImportAs m _ => [m]
                     | _ => []
                     end) (statements nb).

(* ----------------------------------------------------------------- *)
(** *** Calls *)

(** The name at the root of a receiver chain [r.a(...).b[...]]. *)
Fixpoint root (e : expr) : option string :=
  match e with
  | EName x => Some x
  | EAttr r _ => root r
  | ECall f _ => root f
  | ESubscript r _ => root r
  | _ => None
  end.

(** Does [e] call the global function [f]? *)
Definition calls_global (f : string) (e : expr) : bool :=
  match e with
  | ECall (EName g) _ => String.eqb f g
  | _ => false
  end.

(** Does [e] call a method named [m]? *)
Definition calls_method (m : string) (e : expr) : bool :=
  match e with
  | ECall (EAttr _ n) _ => String.eqb m n
  | _ => false
  end.




Definition stmt_has (p : expr -> bool) (s : stmt) : bool :=
  existsb p (stmt_exprs s).

(** Position of the first / last statement satisfying [p]. *)
Fixpoint first_index {A : Type} (p : A -> bool) (l : list A) : option nat :=
  match l with
  | [] => None
  | a :: rest => if p a then Some 0 else option_map S (first_index p rest)
  end.

Fixpoint last_index {A : Type} (p : A -> bool) (l : list A) : option nat :=
  match l with
  | [] => None
  | a :: rest =>
      match last_index p rest with
      | Some i => Some (S i)
      | None => if p a then Some 0 else None
      end
  end.

(* ----------------------------------------------------------------- *)
(** *** Phases of a notebook *)

Inductive phase : Type := Import | Build | Solve | Output.

Definition rank (p : phase) : nat :=
  match p with Import => 0 | Build => 1 | Solve => 2 | Output => 3 end.

(** A solve: [equilibrate(...)], [x.solve(...)] or [x.execute(...)]. *)
Definition is_solve_call (e : expr) : bool :=
  calls_global "equilibrate" e || calls_method "solve" e || calls_method "execute" e.

Definition is_print_call (e : expr) : bool := calls_global "print" e.

Definition is_plot_call (e : expr) : bool :=
  match e with
  | ECall (EAttr (EName r) _) _ => String.eqb r "plt"
  | _ => false
  end.

(** Names of the plotting pipeline: the array modules and the loaded
    data. *)
Definition postprocessing_names : list string := ["numpy"; "np"; "filearray"; "data"].

Definition phase_of (s : stmt) : phase :=
  match s with
  | SImportStar _ | SImportAs _ _ => Import
  | _ =>
      if stmt_has is_solve_call s then Solve
      else if stmt_has is_print_call s || stmt_has is_plot_call s
              || existsb (fun x => mem x postprocessing_names) (reads s)
           then Output
           else Build
  end.

Fixpoint nondecreasing (l : list nat) : bool :=
  match l with
  | a :: (b :: _) as rest => Nat.leb a b && nondecreasing rest
  | _ => true
  end.

(** Import, then build, then solve, then print or plot. *)
Definition phase_ordered (nb : notebook) : bool :=
  nondecreasing (map (fun s => rank (phase_of s)) (code nb)).

(** Every plot comes after the last solve and after the data was loaded. *)
Definition plots_follow_solve (nb : notebook) : bool :=
  match first_index (stmt_has is_plot_call) (code nb) with
  | None => true
  | Some p =>
      match last_index (stmt_has is_solve_call) (code nb),
            last_index (stmt_has (calls_method "loadtxt")) (code nb) with
      | Some s, Some l => Nat.ltb s l && Nat.ltb l p
      | _, _ => false
      end
  end.

(* ----------------------------------------------------------------- *)
(** *** Who is called *)







(** Every callee is a global name the notebook never binds, or an attribute
    of a value: no call enters code written in the notebook. *)
Definition callee_external (nb : notebook) (e : expr) : bool :=
  match e with
  | ECall (EName f) _ => negb (mem f (bound_names nb))
  | ECall (EAttr _ _) _ => true
  | ECall _ _ => false
  | _ => true
  end.

Definition calls_external (nb : notebook) : bool :=
  forallb (callee_external nb) (expressions nb).













(* ----------------------------------------------------------------- *)
(** *** Output columns *)












(* ----------------------------------------------------------------- *)
(** *** What is bound to variables *)

Inductive kind : Type :=
| Number      (* numeric literal or the result of arithmetic *)
| Text        (* string literal *)
| Produced    (* the result of a call *)
| Part        (* an attribute or an element of a value held in a variable *)
| Built.      (* anything the notebook would construct itself *)

Definition kind_of (e : expr) : kind :=
  match e with
  | EInt _ | EFloat _ _ | EBin _ _ _ => Number
  | EStr _ => Text
  | ECall _ _ => Produced
  | EAttr r _ | ESubscript r _ =>
      match root r with Some _ => Part | None => Built end
  | _ => Built
  end.

Definition is_number_literal (e : expr) : bool :=
  match e with EInt _ | EFloat _ _ => true | _ => false end.

(** An assignment binds only numbers, strings, results of calls and parts
    of such values. *)
Definition binds_plain_value (s : stmt) : bool :=
  match s with
  | SAssign (TName _) e =>
      match kind_of e with Built => false | _ => true end
  | SAssign (TSeq xs) (ETuple es) =>
      Nat.eqb (List.length xs) (List.length es) && forallb is_number_literal es
  | SAssign (TSeq _) (ECall _ _) => true
  | SAssign (TSeq _) _ => false
  | _ => true
  end.

Definition plain_bindings (nb : notebook) : bool :=
  forallb binds_plain_value (statements nb).

(** The assignments that bind a part of a value, and those that take a
    tuple written in the notebook apart. *)
Definition part_bindings (nb : notebook) : list stmt :=
  filter (fun s => match s with
                   | SAssign (TName _) e =>
                       match kind_of e with Part => true | _ => false end
                   | _ => false
                   end) (statements nb).

Definition tuple_bindings (nb : notebook) : list stmt :=
  filter (fun s => match s with
                   | SAssign (TSeq _) (ETuple _) => true
                   | _ => false
                   end) (statements nb).

(** The lists and tuples written in a notebook. *)
Definition container_literals (nb : notebook) : list expr :=
  filter (fun e => match e with EList _ | ETuple _ => true | _ => false end)
         (expressions nb).

End Static.

Import Static.

(* ================================================================= *)
(** ** Execution *)

Module Sem.

(** Python values as far as the notebooks can tell them apart.  Objects
    created by the host (library objects, arrays, modules, functions, bound
    methods) are opaque: [VObj h] is the object with identity [h].
    [VFloat q] is the float written by the decimal literal [q]; arithmetic
    on numbers is an operation of the host, so rounding is the host's. *)
Inductive value : Type :=
| VNone
| VInt (z : Z)
| VFloat (q : Q)
| VStr (s : string)
| VList (vs : list value)
| VTuple (vs : list value)
| VSliceAll
| VObj (h : nat).

Record exn : Type := Exn { exn_type : string; exn_msg : string }.

(** The operations the interpreter asks of the host, in the order Python
    performs them. *)
Inductive event : Type :=
| EvImportStar (m : string)
| EvImport (m : string)
| EvGlobal (x : string)
| EvAttr (v : value) (a : string)
| EvApply (f : value) (args : list value) (kwargs : list (string * value))
| EvBin (op : binop) (a b : value)
| EvIndex (v i : value)
| EvFormat (v : value)
| EvUnpack (v : value) (n : nat).

Definition answer : Type := (exn + value)%type.

(** A host: the Python runtime with the installed libraries, the files and
    the terminal.  [react] performs one operation in a world and gives the
    next world together with the result or the exception raised. *)
Record Host : Type := {
  world : Type;
  react : event -> world -> world * answer
}.

(** How a computation ends: normally, with an exception, or on a construct
    outside the executed fragment. *)
Inductive outcome (A : Type) : Type :=
| Ok (a : A)
| Raise (e : exn)
| Unsupported.
Arguments Ok {A} a.
Arguments Raise {A} e.
Arguments Unsupported {A}.

(** The rational written by the decimal literal [m * 10^e]. *)
Definition decimal (m e : Z) : Q :=
  if (0 <=? e)%Z then inject_Z (m * 10 ^ e)
  else Qmake m (Pos.pow 10 (Z.to_pos (- e))).

(** The notebook's variables: the newest binding of a name comes first. *)
Fixpoint lookup (x : string) (env : list (string * value)) : option value :=
  match env with
  | [] => None
  | (y, v) :: rest => if String.eqb x y then Some v else lookup x rest
  end.

(** The positional and the keyword arguments of a call, each in source
    order. *)
Definition positional (avs : list (option string * value)) : list value :=
  flat_map (fun p => match fst p with None => [snd p] | Some _ => [] end) avs.

Definition keywords (avs : list (option string * value)) : list (string * value) :=
  flat_map (fun p => match fst p with Some k => [(k, snd p)] | None => [] end) avs.

(** The two exceptions the interpreter raises itself.  Their type is
    Python's; the message Python gives names the counts or the type of the
    value and is not reproduced, so nothing is stated about [exn_msg] of
    these two. *)
Definition unpack_error : exn := Exn "ValueError" "wrong number of values to unpack".
Definition format_error : exn := Exn "TypeError" "__format__ must return a str".

Section Interpreter.

Variable H : Host.

(** The bindings made by the notebook's own assignments and [import ... as]
    statements, the host's world and the log of the operations performed so
    far, newest first.  [env] is not the whole namespace of the notebook:
    the names that the star imports bound and the builtins are kept by the
    host, which resolves every name absent from [env] ([EvGlobal]).  Since
    the star imports come first in every notebook, a binding in [env]
    always comes after them and takes precedence, as in Python. *)
Record state : Type := {
  env : list (string * value);
  wld : world H;
  log : list (event * answer)
}.

Definition M (A : Type) : Type := state -> state * outcome A.

Definition ret {A : Type} (a : A) : M A := fun s => (s, Ok a).

Definition raise {A : Type} (e : exn) : M A := fun s => (s, Raise e).

Definition unsupported {A : Type} : M A := fun s => (s, Unsupported).

Definition bind {A B : Type} (m : M A) (k : A -> M B) : M B :=
  fun s =>
    match m s with
    | (s', Ok a) => k a s'
    | (s', Raise e) => (s', Raise e)
    | (s', Unsupported) => (s', Unsupported)
    end.

Notation "x <- m ;; k" := (bind m (fun x => k))
  (at level 61, m at next level, right associativity).

(** One host operation: the world advances, the operation and its answer
    are logged, an exception becomes the outcome. *)
Definition perform (ev : event) : M value :=
  fun s =>
    let '(w', a) := react H ev (wld s) in
    let s' := {| env := env s; wld := w'; log := (ev, a) :: log s |} in
    match a with
    | inl e => (s', Raise e)
    | inr v => (s', Ok v)
    end.

Definition get_name (x : string) : M value :=
  fun s =>
    match lookup x (env s) with
    | Some v => (s, Ok v)
    | None => perform (EvGlobal x) s
    end.

Definition set_name (x : string) (v : value) : M unit :=
  fun s => ({| env := (x, v) :: env s; wld := wld s; log := log s |}, Ok tt).

(** One piece of an f-string: a string stands for itself, any other value
    is formatted by the host. *)
Definition format_part (v : value) : M string :=
  match v with
  | VStr s => ret s
  | _ =>
      r <- perform (EvFormat v) ;;
      match r with
      | VStr s => ret s
      | _ => raise format_error
      end
  end.

Fixpoint eval (e : expr) : M value :=
  match e with
  | EName x => get_name x
  | EInt z => ret (VInt z)
  | EFloat m e' => ret (VFloat (decimal m e'))
  | EStr s => ret (VStr s)
  | EFStr parts =>
      (fix go (ps : list expr) (acc : string) : M value :=
         match ps with
         | [] => ret (VStr acc)
         | p :: rest =>
             v <- eval p ;;
             s <- format_part v ;;
             go rest (acc ++ s)%string
         end) parts ""
  | EList es =>
      vs <- (fix go (l : list expr) : M (list value) :=
               match l with
               | [] => ret []
               | x :: rest => v <- eval x ;; vs <- go rest ;; ret (v :: vs)
               end) es ;;
      ret (VList vs)
  | ETuple es =>
      vs <- (fix go (l : list expr) : M (list value) :=
               match l with
               | [] => ret []
               | x :: rest => v <- eval x ;; vs <- go rest ;; ret (v :: vs)
               end) es ;;
      ret (VTuple vs)
  | EAttr r a => v <- eval r ;; perform (EvAttr v a)
  | ECall f args =>
      fv <- eval f ;;
      avs <- (fix go (l : list expr) : M (list (option string * value)) :=
                match l with
                | [] => ret []
                | EKeyword k x :: rest =>
                    v <- eval x ;; vs <- go rest ;; ret ((Some k, v) :: vs)
                | x :: rest =>
                    v <- eval x ;; vs <- go rest ;; ret ((None, v) :: vs)
                end) args ;;
      perform (EvApply fv (positional avs) (keywords avs))
  | EKeyword _ _ => unsupported
  | EBin op a b => va <- eval a ;; vb <- eval b ;; perform (EvBin op va vb)
  | ESubscript r i => v <- eval r ;; iv <- eval i ;; perform (EvIndex v iv)
  | ESliceAll => ret VSliceAll
  | ELambda _ _ => unsupported
  | EAwait _ => unsupported
  end.

Definition check_length (n : nat) (vs : list value) : M (list value) :=
  if Nat.eqb (List.length vs) n then ret vs else raise unpack_error.

(** The values a sequence target receives: a tuple or list is taken apart
    directly, anything else is iterated by the host. *)
Definition unpack (v : value) (n : nat) : M (list value) :=
  match v with
  | VTuple vs | VList vs => check_length n vs
  | _ =>
      r <- perform (EvUnpack v n) ;;
      match r with
      | VTuple vs | VList vs => check_length n vs
      | _ => raise unpack_error
      end
  end.

Fixpoint set_names (xs : list string) (vs : list value) : M unit :=
  match xs, vs with
  | x :: xs', v :: vs' => _ <- set_name x v ;; set_names xs' vs'
  | _, _ => ret tt
  end.

Definition assign_target (t : target) (v : value) : M unit :=
  match t with
  | TName x => set_name x v
  | TSeq xs => vs <- unpack v (List.length xs) ;; set_names xs vs
  end.

(** Statements.  The notebooks are made of imports, expression statements
    and assignments; [try] is given its meaning as well, the handler running
    in the state the failure left.  Loops, branches, [with] and definitions
    are outside the executed fragment.  A star import is one operation of
    the host, which keeps the names it brings in (see [state]). *)
Fixpoint exec (s : stmt) : M unit :=
  match s with
  | SImportStar m => _ <- perform (EvImportStar m) ;; ret tt
  | SImportAs m a => v <- perform (EvImport m) ;; set_name a v
  | SExpr e => _ <- eval e ;; ret tt
  | SAssign t e => v <- eval e ;; assign_target t v
  | STry body handler =>
      let block :=
        fix go (l : list stmt) : M unit :=
          match l with
          | [] => ret tt
          | x :: rest => _ <- exec x ;; go rest
          end in
      fun st =>
        match block body st with
        | (st', Raise _) => block handler st'
        | r => r
        end
  | _ => unsupported
  end.

Fixpoint exec_block (l : list stmt) : M unit :=
  match l with
  | [] => ret tt
  | x :: rest => _ <- exec x ;; exec_block rest
  end.

Definition initial (w : world H) : state := {| env := []; wld := w; log := [] |}.

(** Running a notebook: its cells in order, stopping at the first
    exception.  What the notebook front end does with the value of the last
    expression of a cell (displaying it) is not part of the code and is not
    modelled. *)
Definition run (nb : notebook) (w : world H) : state * outcome unit :=
  exec_block (code nb) (initial w).

End Interpreter.

Arguments env {H} s.
Arguments wld {H} s.
Arguments log {H} s.

(* ----------------------------------------------------------------- *)
(** *** What is said about runs *)

(** No logged operation of [l] raised. *)
Definition clean (l : list (event * answer)) : Prop :=
  forall ev e, ~ In (ev, inl e) l.

Section Transparency.

Variable H : Host.

(** A computation lets exceptions through: what it adds to the log is either
    free of failures, or its newest entry is the one failed operation, and
    then the outcome is that very exception. *)
Definition lets_through (s s' : state H) {A : Type} (o : outcome A) : Prop :=
  exists new,
    log s' = new ++ log s /\
    (clean new \/
     exists ev e rest, new = (ev, inl e) :: rest /\ clean rest /\ o = Raise e).

Definition transparent {A : Type} (m : M H A) : Prop :=
  forall s, lets_through s (fst (m s)) (snd (m s)).

End Transparency.

Arguments lets_through {H} s s' {A} o.
Arguments transparent {H A} m.

(** The operations by which one ion is added: eight consecutive entries of
    the log (newest first).  [add] is looked up on the problem, [mg] is
    multiplied by [1e-6], the species [queried] is looked up in the system
    and asked for its molar mass, the product is divided by that molar
    mass, and the quotient is what [add] receives for [ion], in mol. *)
Definition molar_amount_added (l : list (event * answer)) (sys pb : value)
    (ion : string) (mg : value) (queried : string) : Prop :=
  exists add kg species sp molarMass mm n r k,
    firstn 8 (skipn k l)
    = [ (EvApply add [VStr ion; n; VStr "mol"] [], inr r);
        (EvBin Div kg mm, inr n);
        (EvApply molarMass [] [], inr mm);
        (EvAttr sp "molarMass", inr molarMass);
        (EvApply species [VStr queried] [], inr sp);
        (EvAttr sys "species", inr species);
        (EvBin Mul mg (VFloat (decimal 1 (-6))), inr kg);
        (EvAttr pb "add", inr add) ].

Definition phreeqc_database : string := "../databases/phreeqc/phreeqc.dat".

(** What the three cells of lines 264-321 ask of the host, from a log
    [before] to a log [after]: [Phreeqc] is resolved and applied to the
    database path, [execute] is looked up on the result and applied to the
    text of [ex1], nothing else; the first failure ends it. *)
Definition script_handed_over (before after : list (event * answer))
    (o : outcome unit) : Prop :=
  (exists e, after = [(EvGlobal "Phreeqc", inl e)] ++ before /\ o = Raise e)
  \/ (exists P e,
        after = [ (EvApply P [VStr phreeqc_database] [], inl e);
                  (EvGlobal "Phreeqc", inr P) ] ++ before
        /\ o = Raise e)
  \/ (exists P p e,
        after = [ (EvAttr p "execute", inl e);
                  (EvApply P [VStr phreeqc_database] [], inr p);
                  (EvGlobal "Phreeqc", inr P) ] ++ before
        /\ o = Raise e)
  \/ (exists P p f a,
        after = [ (EvApply f [VStr ex1_text] [], a);
                  (EvAttr p "execute", inr f);
                  (EvApply P [VStr phreeqc_database] [], inr p);
                  (EvGlobal "Phreeqc", inr P) ] ++ before
        /\ o = match a with inl e => Raise e | inr _ => Ok tt end).

End Sem.

Import Sem.

(* ================================================================= *)
(** ** Example hosts *)

Module Hosts.

Definition number (v : value) : option Q :=
  match v with
  | VInt z => Some (inject_Z z)
  | VFloat q => Some q
  | _ => None
  end.

Definition arith (op : binop) (x y : Q) : Q :=
  match op with
  | Add => Qplus x y
  | Sub => Qminus x y
  | Mul => Qmult x y
  | Div => Qdiv x y
  end.

(** The world of the laboratory host: the identity of the next object and
    the mass of every species held by every state object. *)
Record lab_world : Type := {
  next : nat;
  mass : nat -> string -> Q
}.

Definition fresh (w : lab_world) : lab_world * answer :=
  ({| next := S (next w); mass := mass w |}, inr (VObj (next w))).

Definition bound_method (f : value) : option (value * string) :=
  match f with
  | VTuple [r; VStr m] => Some (r, m)
  | _ => None
  end.

Definition mass_arguments (args : list value) : option (string * Z) :=
  match args with
  | [VStr sp; VInt g; _] => Some (sp, g)
  | _ => None
  end.

Definition set_mass (h : nat) (sp : string) (g : Z) (w : lab_world) : lab_world :=
  {| next := next w;
     mass := fun h' sp' =>
               if Nat.eqb h' h && String.eqb sp' sp then inject_Z g else mass w h' sp' |}.

Definition apply_method (r : value) (m : string) (args : list value) (w : lab_world)
    : lab_world * answer :=
  if String.eqb m "setSpeciesMass" then
    match r, mass_arguments args with
    | VObj h, Some (sp, g) => (set_mass h sp g w, inr VNone)
    | _, _ => fresh w
    end
  else if String.eqb m "molarMass" then (w, inr (VFloat (1 # 10)))
  else fresh w.

(** A host that never fails.  Globals and attributes are returned as
    symbolic references; arithmetic on numbers is exact; applying
    [setSpeciesMass] of a state sets the mass of the named species and of no
    other; [molarMass] answers a tenth of a kilogram per mole; every other
    call creates a new object. *)
Definition lab_react (ev : event) (w : lab_world) : lab_world * answer :=
  match ev with
  | EvImportStar _ => (w, inr VNone)
  | EvImport _ => fresh w
  | EvGlobal x => (w, inr (VTuple [VStr "global"; VStr x]))
  | EvAttr v a => (w, inr (VTuple [v; VStr a]))
  | EvApply f args _ =>
      match bound_method f with
      | Some (r, m) => apply_method r m args w
      | None => fresh w
      end
  | EvBin op a b =>
      match number a, number b with
      | Some x, Some y => (w, inr (VFloat (Qred (arith op x y))))
      | _, _ => fresh w
      end
  | EvIndex _ _ => fresh w
  | EvFormat _ => (w, inr (VStr "<object>"))
  | EvUnpack _ n => (w, inr (VList (map (fun i => VInt (Z.of_nat i)) (seq 0 n))))
  end.

Definition lab : Host := {| world := lab_world; react := lab_react |}.

Definition lab_start : lab_world := {| next := 0; mass := fun _ _ => 0%Q |}.

Definition out_of_memory : exn := Exn "MemoryError" "".

(** The laboratory host with a fault: the operation number [k] (counted
    from 0) raises, whatever it is. *)
Definition faulty_react (k : nat) (ev : event) (w : nat * lab_world)
    : (nat * lab_world) * answer :=
  if Nat.eqb (fst w) k
  then ((S (fst w), snd w), inl out_of_memory)
  else let '(w', a) := lab_react ev (snd w) in ((S (fst w), w'), a).

Definition faulty (k : nat) : Host :=
  {| world := (nat * lab_world)%type; react := faulty_react k |}.

End Hosts.

Import Hosts.

(* ================================================================= *)
(** ** What a run leaves behind *)

Module Flow.

(** Expressions of the executed fragment: no lambda, no await, keyword
    arguments only as arguments of a call. *)
Fixpoint executable (e : expr) : bool :=
  match e with
  | EName _ | EInt _ | EFloat _ _ | EStr _ | ESliceAll => true
  | EFStr ps | EList ps | ETuple ps => forallb executable ps
  | EAttr r _ => executable r
  | ECall f args =>
      executable f
      && forallb (fun a => match a with
                           | EKeyword _ x => executable x
                           | _ => executable a
                           end) args
  | EBin _ a b | ESubscript a b => executable a && executable b
  | EKeyword _ _ | ELambda _ _ | EAwait _ => false
  end.

(** Does the expression contain an f-string? *)
Fixpoint formats (e : expr) : bool :=
  match e with
  | EFStr _ => true
  | EList ps | ETuple ps => existsb formats ps
  | EAttr r _ => formats r
  | ECall f args => formats f || existsb formats args
  | EKeyword _ x => formats x
  | EBin _ a b | ESubscript a b => formats a || formats b
  | ELambda _ b => formats b
  | EAwait x => formats x
  | EName _ | EInt _ | EFloat _ _ | EStr _ | ESliceAll => false
  end.

Definition runnable (s : stmt) : bool :=
  is_simple s && forallb executable (own_exprs s).

(** Does the statement take a sequence apart? *)
Definition unpacks (s : stmt) : bool :=
  match s with SAssign (TSeq _) _ => true | _ => false end.

Definition stmt_formats (s : stmt) : bool := existsb formats (own_exprs s).

(** How a run can end, given the operations [new] it logged: normally,
    with no operation failed; with the exception of its last operation, the
    only one that failed; or, no operation having failed, with a
    [ValueError] where the code takes a value apart ([u]) or a [TypeError]
    where it formats an f-string ([f]). *)
Definition accounted_for (u f : bool) (new : list (event * answer)) {A : Type}
    (o : outcome A) : Prop :=
  (clean new /\ exists a, o = Ok a)
  \/ (exists ev e rest, new = (ev, inl e) :: rest /\ clean rest /\ o = Raise e)
  \/ (u = true /\ clean new /\ exists e, o = Raise e /\ exn_type e = "ValueError")
  \/ (f = true /\ clean new /\ exists e, o = Raise e /\ exn_type e = "TypeError").

Definition accounted (H : Host) (u f : bool) {A : Type} (m : M H A) : Prop :=
  forall s, exists new,
    log (fst (m s)) = new ++ log s /\ accounted_for u f new (snd (m s)).

(** A computation that leaves the notebook's variables as they are. *)
Definition keeps_env (H : Host) {A : Type} (m : M H A) : Prop :=
  forall s, env (fst (m s)) = env s.

(** How a value [v] is taken apart into the [n] values [vs], and what this
    adds to the log: a tuple or list as it is, anything else through the
    host. *)
Definition taken_apart (seg : list (event * answer)) (v : value) (n : nat)
    (vs : list value) : Prop :=
  List.length vs = n
  /\ ((seg = [] /\ (v = VTuple vs \/ v = VList vs))
      \/ exists r, seg = [(EvUnpack v n, inr r)] /\ (r = VTuple vs \/ r = VList vs)).

(** The statements of the cells before cell [i] of a notebook, of its cell
    [i], and of its cells from [i] up to, not including, [j].  Cells are
    counted from 0, the markdown cells included. *)
Definition upto (i : nat) (nb : notebook) : list stmt := code (firstn i nb).

Definition cell_at (i : nat) (nb : notebook) : list stmt := cell_code (nth i nb Markdown).

Definition cells (i j : nat) (nb : notebook) : list stmt :=
  code (firstn (j - i) (skipn i nb)).

Definition name_error (x : string) : exn :=
  Exn "NameError" ("name '" ++ x ++ "' is not defined").

(** The laboratory host with an installation whose star imports do not
    bring in the name [x]. *)
Definition without_react (x : string) (ev : event) (w : lab_world)
    : lab_world * answer :=
  match ev with
  | EvGlobal y => if String.eqb y x then (w, inl (name_error x)) else lab_react ev w
  | _ => lab_react ev w
  end.

Definition without (x : string) : Host :=
  {| world := lab_world; react := without_react x |}.

End Flow.

Import Flow.

(* ================================================================= *)
(** ** What the library is asked *)

Module Trace.

(** Pieces of a log, newest operation first.  [called seg f args r]: the
    global [f] is resolved and applied to [args], giving [r]. *)
Definition called (seg : list (event * answer)) (f : string) (args : list value)
    (r : value) : Prop :=
  exists fv, seg = [ (EvApply fv args [], inr r); (EvGlobal f, inr fv) ].

(** The method [m] of [recv] is looked up and applied to [args], giving [r]. *)
Definition method_called (seg : list (event * answer)) (recv : value) (m : string)
    (args : list value) (r : value) : Prop :=
  exists fv, seg = [ (EvApply fv args [], inr r); (EvAttr recv m, inr fv) ].

(** The same, the result being dropped. *)
Definition told (seg : list (event * answer)) (recv : value) (m : string)
    (args : list value) : Prop :=
  exists r, method_called seg recv m args r.

Definition printed (seg : list (event * answer)) (args : list value) : Prop :=
  exists r, called seg "print" args r.

(* ----------------------------------------------------------------- *)
(** *** The Evian notebook *)

(** Lines 194-199 (202-205, 208-211): the reaction is asked for the
    logarithms of its equilibrium constant and of its reaction quotient on
    [props], their [val] attributes are subtracted, quotient minus constant,
    and [exp] of the difference is [si]. *)
Definition saturation_computed (seg : list (event * answer))
    (reaction props si : value) : Prop :=
  exists mK lnK mQ lnQ q k sr expf,
    seg = [ (EvApply expf [sr] [], inr si);
            (EvGlobal "exp", inr expf);
            (EvBin Sub q k, inr sr);
            (EvAttr lnK "val", inr k);
            (EvAttr lnQ "val", inr q);
            (EvApply mQ [props] [], inr lnQ);
            (EvAttr reaction "lnReactionQuotient", inr mQ);
            (EvApply mK [props] [], inr lnK);
            (EvAttr reaction "lnEquilibriumConstant", inr mK) ].

(** Lines 54-61 and 169-215, in a log [l] that ends with variables [e]:
    each mineral's reaction is built from its own equation and the system;
    the properties are those of the state that [equilibrate] gave for the
    problem; each saturation index is computed from the reaction of its
    mineral on these properties and printed under the name of that
    mineral. *)
Definition saturation_indices_reported (l : list (event * answer))
    (e : list (string * value)) : Prop :=
  exists sys pb st props eqc eqd eqq rc rd rq sic sid siq,
  exists e1 e2 e3 r1 r2 r3 equil pr pp c d q p1 p2 p3 mid older,
    l = p3 ++ p2 ++ p1 ++ q ++ d ++ c ++ pp ++ pr ++ equil
        ++ mid ++ r3 ++ r2 ++ r1 ++ e3 ++ e2 ++ e1 ++ older
    /\ lookup "system" e = Some sys
    /\ lookup "problem" e = Some pb
    /\ called e1 "ReactionEquation" [VStr "Calcite + H+ = Ca++ + HCO3-"] eqc
    /\ called e2 "ReactionEquation" [VStr "Dolomite + 2*H+ = Ca++ + Mg++ + 2*HCO3-"] eqd
    /\ called e3 "ReactionEquation" [VStr "Quartz + H2O(l) = H+ + HSiO3-"] eqq
    /\ called r1 "Reaction" [eqc; sys] rc
    /\ called r2 "Reaction" [eqd; sys] rd
    /\ called r3 "Reaction" [eqq; sys] rq
    /\ called equil "equilibrate" [pb] st
    /\ printed pr [st]
    /\ method_called pp st "properties" [] props
    /\ saturation_computed c rc props sic
    /\ saturation_computed d rd props sid
    /\ saturation_computed q rq props siq
    /\ printed p1 [VStr "Saturation Index (Calcite) = "; sic]
    /\ printed p2 [VStr "Saturation Index (Dolomite) = "; sid]
    /\ printed p3 [VStr "Saturation Index (Quartz) = "; siq].



(** Line 132: silica is added as 15 times 1e-3 divided by 28.0855, the
    product taken first, both operations being the host's. *)
Definition silica_added (seg : list (event * answer)) (pb : value) : Prop :=
  exists add g n r,
    seg = [ (EvApply add [VStr "Si"; n; VStr "mol"] [], inr r);
            (EvBin Div g (VFloat (decimal 280855 (-4))), inr n);
            (EvBin Mul (VInt 15) (VFloat (decimal 1 (-3))), inr g);
            (EvAttr pb "add", inr add) ].

(** Lines 101-115, one ion: [add] is looked up on the problem, [mg] is
    multiplied by [1e-6], the species [queried] is looked up in the system
    and asked for its molar mass, the product is divided by it, and the
    quotient is what [add] receives for [ion], in mol. *)
Definition ion_added (seg : list (event * answer)) (sys pb : value) (ion : string)
    (mg : value) (queried : string) : Prop :=
  exists add kg species sp molarMass mm n r,
    seg = [ (EvApply add [VStr ion; n; VStr "mol"] [], inr r);
            (EvBin Div kg mm, inr n);
            (EvApply molarMass [] [], inr mm);
            (EvAttr sp "molarMass", inr molarMass);
            (EvApply species [VStr queried] [], inr sp);
            (EvAttr sys "species", inr species);
            (EvBin Mul mg (VFloat (decimal 1 (-6))), inr kg);
            (EvAttr pb "add", inr add) ].

(** Lines 78-170: one problem is built from the system; temperature,
    pressure and water, then the eight ions, each as its concentration
    times 1e-6 over the molar mass of the species queried from the same
    system, then silica, the three minerals with a zero amount and the pH
    are set on it, in this order; [equilibrate] is
    applied to this problem, and its result is bound to [state] and
    printed. *)
Definition inverse_problem_solved (l : list (event * answer))
    (e : list (string * value)) : Prop :=
  exists sys pb st,
  exists built temp press water i1 i2 i3 i4 i5 i6 i7 i8 si m1 m2 m3 ph equil pr older,
    l = pr ++ equil ++ ph ++ m3 ++ m2 ++ m1 ++ si
        ++ i8 ++ i7 ++ i6 ++ i5 ++ i4 ++ i3 ++ i2 ++ i1
        ++ water ++ press ++ temp ++ built ++ older
    /\ called built "EquilibriumInverseProblem" [sys] pb
    /\ told temp pb "setTemperature" [VInt 25; VStr "celsius"]
    /\ told press pb "setPressure" [VFloat (decimal 101325 (-5)); VStr "bar"]
    /\ told water pb "add" [VStr "H2O"; VFloat (decimal 10 (-1)); VStr "kg"]
    /\ ion_added i1 sys pb "Ca++" (VInt 80) "Ca++"
    /\ ion_added i2 sys pb "Cl-" (VFloat (decimal 68 (-1))) "Cl-"
    /\ ion_added i3 sys pb "HCO3-" (VInt 350) "HCO3-"
    /\ ion_added i4 sys pb "Mg++" (VInt 26) "Mg++"
    /\ ion_added i5 sys pb "NO3-" (VFloat (decimal 37 (-1))) "NO3-"
    /\ ion_added i6 sys pb "K+" (VInt 1) "K+"
    /\ ion_added i7 sys pb "Na+" (VFloat (decimal 65 (-1))) "Na+"
    /\ ion_added i8 sys pb "SO4--" (VFloat (decimal 126 (-1))) "S2O4--"
    /\ silica_added si pb
    /\ told m1 pb "add" [VStr "Calcite"; VFloat (decimal 0 (-1)); VStr "mol"]
    /\ told m2 pb "add" [VStr "Dolomite"; VFloat (decimal 0 (-1)); VStr "mol"]
    /\ told m3 pb "add" [VStr "Quartz"; VFloat (decimal 0 (-1)); VStr "mol"]
    /\ told ph pb "pH" [VFloat (decimal 72 (-1)); VStr "HCl"; VStr "NaOH"]
    /\ called equil "equilibrate" [pb] st
    /\ printed pr [st]
    /\ lookup "system" e = Some sys
    /\ lookup "problem" e = Some pb
    /\ lookup "state" e = Some st.

(** Lines 264-373: the Phreeqc object is built from the database, executes
    the script, and the system built from that object is what [system] names
    from then on; the state this object gives for that system is what
    [state] names from then on, and what the last line prints. *)
Definition phreeqc_state_reported (l : list (event * answer))
    (e : list (string * value)) : Prop :=
  exists p sys st,
  exists built run sysb stb pr older,
    l = pr ++ stb ++ sysb ++ run ++ built ++ older
    /\ called built "Phreeqc" [VStr phreeqc_database] p
    /\ told run p "execute" [VStr ex1_text]
    /\ called sysb "ChemicalSystem" [p] sys
    /\ method_called stb p "state" [sys] st
    /\ printed pr [st]
    /\ lookup "phreeqc" e = Some p
    /\ lookup "system" e = Some sys
    /\ lookup "state" e = Some st.

(* ----------------------------------------------------------------- *)
(** *** The kinetics notebook *)

(** Lines 46-109: the editor is built without a database; the mineral
    reaction is defined by a chain of calls, each method being looked up on
    what the call before it returned, the first on the editor; the chemical
    system and the reaction system are then both built from that editor. *)
Definition mineral_reaction_defined (l : list (event * answer))
    (e : list (string * value)) : Prop :=
  exists ed r1 r2 r3 r4 sys rs,
  exists built aq mp c1 c2 c3 c4 c5 sysb rsb older,
    l = rsb ++ sysb ++ c5 ++ c4 ++ c3 ++ c2 ++ c1 ++ mp ++ aq ++ built ++ older
    /\ called built "ChemicalEditor" [] ed
    /\ told aq ed "addAqueousPhaseWithElementsOf" [VStr "H2O HCl CaCO3"]
    /\ told mp ed "addMineralPhase" [VStr "Calcite"]
    /\ method_called c1 ed "addMineralReaction" [VStr "Calcite"] r1
    /\ method_called c2 r1 "setEquation" [VStr "Calcite = Ca++ + CO3--"] r2
    /\ method_called c3 r2 "addMechanism"
         [VStr "logk = -5.81 mol/(m2*s); Ea = 23.5 kJ/mol"] r3
    /\ method_called c4 r3 "addMechanism"
         [VStr "logk = -0.30 mol/(m2*s); Ea = 14.4 kJ/mol; a[H+] = 1.0"] r4
    /\ told c5 r4 "setSpecificSurfaceArea" [VInt 10; VStr "cm2/g"]
    /\ called sysb "ChemicalSystem" [ed] sys
    /\ called rsb "ReactionSystem" [ed] rs
    /\ lookup "editor" e = Some ed
    /\ lookup "system" e = Some sys
    /\ lookup "reactions" e = Some rs.

(** Lines 253-260: the output object is asked of the path, given the file
    name and the six quantities, in this order. *)
Definition kinetics_output_set_up (seg : list (event * answer)) (path : value) : Prop :=
  exists o got fn a1 a2 a3 a4 a5 a6,
    seg = a6 ++ a5 ++ a4 ++ a3 ++ a2 ++ a1 ++ fn ++ got
    /\ method_called got path "output" [] o
    /\ told fn o "filename" [VStr "results.txt"]
    /\ told a1 o "add" [VStr "time(units=minute)"]
    /\ told a2 o "add" [VStr "elementMolality(Ca units=mmolal)"; VStr "Ca [mmolal]"]
    /\ told a3 o "add" [VStr "phaseMass(Calcite units=g)"; VStr "Calcite [units=g]"]
    /\ told a4 o "add" [VStr "speciesMolality(Ca++ units=mmolal)"; VStr "Ca++ [mmol]"]
    /\ told a5 o "add" [VStr "speciesMolality(HCO3- units=mmolal)"; VStr "HCO3- [mmol]"]
    /\ told a6 o "add" [VStr "pH"].

(** Lines 135-288: the partition built from the system is given both to
    the equilibrium problem, itself built from the system, and to the
    kinetic path, built from the reaction system; the state that
    [equilibrate] gives for the problem has its calcite set to 100 g and is
    what [solve] starts from, with the times 0.0 and 5.0 of line 287, in
    minutes; the output set up in between is that of the path solved. *)
Definition kinetic_path_solved (l : list (event * answer))
    (e : list (string * value)) : Prop :=
  exists sys rs part pb st0 path,
  exists partb ks pbb sp t p w a equil mass pathb pp out sv older,
    l = sv ++ out ++ pp ++ pathb ++ mass ++ equil ++ a ++ w ++ p ++ t ++ sp
        ++ pbb ++ ks ++ partb ++ older
    /\ called partb "Partition" [sys] part
    /\ told ks part "setKineticSpecies" [VList [VStr "Calcite"]]
    /\ called pbb "EquilibriumProblem" [sys] pb
    /\ told sp pb "setPartition" [part]
    /\ told t pb "setTemperature" [VInt 30; VStr "celsius"]
    /\ told p pb "setPressure" [VInt 1; VStr "bar"]
    /\ told w pb "add" [VStr "H2O"; VInt 1; VStr "kg"]
    /\ told a pb "add" [VStr "HCl"; VInt 1; VStr "mmol"]
    /\ called equil "equilibrate" [pb] st0
    /\ told mass st0 "setSpeciesMass" [VStr "Calcite"; VInt 100; VStr "g"]
    /\ called pathb "KineticPath" [rs] path
    /\ told pp path "setPartition" [part]
    /\ kinetics_output_set_up out path
    /\ told sv path "solve"
         [st0; VFloat (decimal 0 (-1)); VFloat (decimal 50 (-1)); VStr "minute"]
    /\ lookup "system" e = Some sys
    /\ lookup "reactions" e = Some rs
    /\ lookup "state0" e = Some st0
    /\ lookup "path" e = Some path.

(** [plt.plot(x, data[i], label=...)], [x] being a variable. *)
Definition curve_over (seg : list (event * answer)) (plt x data i : value)
    (label : string) : Prop :=
  exists f y r,
    seg = [ (EvApply f [x; y] [("label", VStr label)], inr r);
            (EvIndex data i, inr y);
            (EvAttr plt "plot", inr f) ].

(** Lines 324-326: the file is loaded by [numpy.loadtxt], skipping one row,
    [numpy] being resolved by the host each time; [data] is the [T]
    attribute of what was loaded, and [ar] is [numpy.arange(0, 6)]. *)
Definition results_loaded (seg : list (event * answer)) (data ar : value) : Prop :=
  exists np1 lf fa np2 af,
    seg = [ (EvApply af [VInt 0; VInt 6] [], inr ar);
            (EvAttr np2 "arange", inr af);
            (EvGlobal "numpy", inr np2);
            (EvAttr fa "T", inr data);
            (EvApply lf [VStr "results.txt"] [("skiprows", VInt 1)], inr fa);
            (EvAttr np1 "loadtxt", inr lf);
            (EvGlobal "numpy", inr np1) ].

(** Lines 324-393: the six values into which the result of [arange] is
    taken apart index the rows of [data]: [time] is the row at the first,
    with a full slice; each curve is drawn over [time] and shows the row at
    the second (Ca), third (Calcite), sixth (pH), fourth (Ca++) and fifth
    (HCO3-) of them, the last two in one figure. *)
Definition kinetics_plotted (l : list (event * answer))
    (e : list (string * value)) : Prop :=
  exists plt data ar i0 i1 i2 i3 i4 i5 time,
  exists load unp tm f1 c1 d1 f2 c2 d2 f3 c3 d3 f4 c4 c5 d4 older,
    l = d4 ++ c5 ++ c4 ++ f4 ++ d3 ++ c3 ++ f3 ++ d2 ++ c2 ++ f2
        ++ d1 ++ c1 ++ f1 ++ tm ++ unp ++ load ++ older
    /\ lookup "plt" e = Some plt
    /\ results_loaded load data ar
    /\ taken_apart unp ar 6 [i0; i1; i2; i3; i4; i5]
    /\ tm = [ (EvIndex data (VTuple [i0; VSliceAll]), inr time) ]
    /\ told f1 plt "figure" []
    /\ curve_over c1 plt time data i1 "Ca"
    /\ told f2 plt "figure" []
    /\ curve_over c2 plt time data i2 "Calcite"
    /\ told f3 plt "figure" []
    /\ curve_over c3 plt time data i5 "pH"
    /\ told f4 plt "figure" []
    /\ curve_over c4 plt time data i3 "Ca++"
    /\ curve_over c5 plt time data i4 "HCO3-".

(* ----------------------------------------------------------------- *)
(** *** The equilibrium-path notebook *)

(** Lines 95-99 and 101-105: a problem is built from the system and given
    the temperature 30.0 celsius, the pressure 1.0 bar, 1 kg of water and
    1 g of calcium carbonate. *)
Definition problem_posed (seg : list (event * answer)) (sys pb : value) : Prop :=
  exists built t p w c,
    seg = c ++ w ++ p ++ t ++ built
    /\ called built "EquilibriumProblem" [sys] pb
    /\ told t pb "setTemperature" [VFloat (decimal 300 (-1)); VStr "celsius"]
    /\ told p pb "setPressure" [VFloat (decimal 10 (-1)); VStr "bar"]
    /\ told w pb "add" [VStr "H2O"; VInt 1; VStr "kg"]
    /\ told c pb "add" [VStr "CaCO3"; VInt 1; VStr "g"].

(** Lines 165-172: the output object is asked of the path, given the file
    name and the six quantities, in this order. *)
Definition path_output_set_up (seg : list (event * answer)) (path : value) : Prop :=
  exists o got fn a1 a2 a3 a4 a5 a6,
    seg = a6 ++ a5 ++ a4 ++ a3 ++ a2 ++ a1 ++ fn ++ got
    /\ method_called got path "output" [] o
    /\ told fn o "filename" [VStr "result.txt"]
    /\ told a1 o "add" [VStr "elementAmount(Cl units=mmol)"; VStr "Cl [mmol]"]
    /\ told a2 o "add" [VStr "speciesMolality(CO2(aq) units=mmolal)"; VStr "CO2(aq) [mmol]"]
    /\ told a3 o "add" [VStr "speciesMolality(CO3-- units=mmolal)"; VStr "CO3-- [mmol]"]
    /\ told a4 o "add" [VStr "elementMolality(Ca units=mmolal)"; VStr "Ca [mmolal]"]
    /\ told a5 o "add" [VStr "pH"]
    /\ told a6 o "add" [VStr "speciesMass(Calcite units=g)"].

(** Lines 35-200, the whole of what the notebook asks up to there: after
    the import, the editor is built and given its phases, and the system is
    built from it; two problems are built from the one system and posed
    alike, the final one receiving 1 mmol of HCl in addition; each is
    equilibrated; the path is built from the same system, and its [solve] is
    applied to the state of the initial problem and the state of the final
    problem, in this order, after the output of that path has been set up;
    what [solve] returns is what [path] names from then on. *)
Definition equilibrium_path_solved (l : list (event * answer))
    (e : list (string * value)) : Prop :=
  exists ed sys pi pf si sf path solved,
  exists imp edb aq mp sysb ip fp hcl ei ef pathb out sv,
    l = sv ++ out ++ pathb ++ ef ++ ei ++ hcl ++ fp ++ ip ++ sysb
        ++ mp ++ aq ++ edb ++ imp
    /\ (exists r, imp = [ (EvImportStar "reaktoro", inr r) ])
    /\ called edb "ChemicalEditor" [] ed
    /\ told aq ed "addAqueousPhaseWithElements" [VStr "H O Ca C Cl"]
    /\ told mp ed "addMineralPhase" [VStr "Calcite"]
    /\ called sysb "ChemicalSystem" [ed] sys
    /\ problem_posed ip sys pi
    /\ problem_posed fp sys pf
    /\ told hcl pf "add" [VStr "HCl"; VInt 1; VStr "mmol"]
    /\ called ei "equilibrate" [pi] si
    /\ called ef "equilibrate" [pf] sf
    /\ called pathb "EquilibriumPath" [sys] path
    /\ path_output_set_up out path
    /\ method_called sv path "solve" [si; sf] solved
    /\ lookup "initial_state" e = Some si
    /\ lookup "final_state" e = Some sf
    /\ lookup "path" e = Some solved.

(** [plt.plot(data[ix], data[iy], label=...)]. *)
Definition curve (seg : list (event * answer)) (plt data ix iy : value)
    (label : string) : Prop :=
  exists f x y r,
    seg = [ (EvApply f [x; y] [("label", VStr label)], inr r);
            (EvIndex data iy, inr y);
            (EvIndex data ix, inr x);
            (EvAttr plt "plot", inr f) ].

(** Lines 236-238: the file is loaded by [loadtxt] of the module [np],
    skipping one row; [data] is the [T] attribute of what was loaded, and
    [ar] is [np.arange(6)]. *)
Definition result_loaded (seg : list (event * answer)) (np data ar : value) : Prop :=
  exists lf fa af,
    seg = [ (EvApply af [VInt 6] [], inr ar);
            (EvAttr np "arange", inr af);
            (EvAttr fa "T", inr data);
            (EvApply lf [VStr "result.txt"] [("skiprows", VInt 1)], inr fa);
            (EvAttr np "loadtxt", inr lf) ].

(** Lines 219-339: numpy is imported by the notebook; the six values into
    which the result of [arange] is taken apart are named, in this order,
    [cl], [co2], [co3], [ca], [ph] and [calcite]; the curve labelled Cl shows
    the row of [data] at [cl] over the row at [ph]; Ca shows [ca] over [cl];
    CO2(aq) and CO3--, in one figure, show [co2] and [co3] over [ph]; and
    Calcite shows [calcite] over [cl]. *)
Definition equilibrium_path_plotted (l : list (event * answer))
    (e : list (string * value)) : Prop :=
  exists plt np data ar cl co2 co3 ca ph calcite,
  exists imp load unp f1 c1 d1 f2 c2 d2 f3 c3 c4 d3 f4 c5 d4 older,
    l = d4 ++ c5 ++ f4 ++ d3 ++ c4 ++ c3 ++ f3 ++ d2 ++ c2 ++ f2
        ++ d1 ++ c1 ++ f1 ++ unp ++ load ++ imp ++ older
    /\ imp = [ (EvImport "numpy", inr np); (EvImport "matplotlib.pyplot", inr plt) ]
    /\ result_loaded load np data ar
    /\ taken_apart unp ar 6 [cl; co2; co3; ca; ph; calcite]
    /\ told f1 plt "figure" []
    /\ curve c1 plt data ph cl "Cl"
    /\ told f2 plt "figure" []
    /\ curve c2 plt data cl ca "Ca"
    /\ told f3 plt "figure" []
    /\ curve c3 plt data ph co2 "CO2(aq)"
    /\ curve c4 plt data ph co3 "CO3--"
    /\ told f4 plt "figure" []
    /\ curve c5 plt data cl calcite "Calcite".

(* ----------------------------------------------------------------- *)
(** *** The sodium-chloride notebook *)

(** Line 188: the amount of halite is asked of the state [st]; if it is not
    a string, the host formats it; the text is appended to the label, and
    the whole is printed. *)
Definition amount_reported (shown fmt asked : list (event * answer))
    (st : value) : Prop :=
  exists pf sa amt text r,
    shown = [ (EvApply pf [VStr ("Amount of NaCl(s) : " ++ text)] [], inr r) ]
    /\ asked = [ (EvApply sa [VStr "Halite"] [], inr amt);
                 (EvAttr st "speciesAmount", inr sa);
                 (EvGlobal "print", inr pf) ]
    /\ ((fmt = [] /\ amt = VStr text)
        \/ fmt = [ (EvFormat amt, inr (VStr text)) ]).

(** The whole notebook: after the import, the database is opened, the
    editor built from it and given its phases, and the system built from the
    editor; the system is printed before any problem exists; one
    problem is built from it and given 25 celsius, 1 bar, 1.0 kg of water
    and 1.0 mg of salt; it is equilibrated and the state printed; the same
    problem is given 1.0 kg of salt more and equilibrated again; the second
    state is what [state] names from then on, what is printed, and what the
    reported amount of halite is asked of. *)
Definition salt_dissolved (l : list (event * answer))
    (e : list (string * value)) : Prop :=
  exists db ed sys pb st1 st2,
  exists imp dbb edb aq mp sysb ps pbb t p w salt e1 p1 more e2 p2 asked fmt shown,
    l = shown ++ fmt ++ asked ++ p2 ++ e2 ++ more ++ p1 ++ e1
        ++ salt ++ w ++ p ++ t ++ pbb ++ ps ++ sysb ++ mp ++ aq ++ edb ++ dbb ++ imp
    /\ (exists r, imp = [ (EvImportStar "reaktoro", inr r) ])
    /\ called dbb "Database" [VStr "supcrt98.xml"] db
    /\ called edb "ChemicalEditor" [db] ed
    /\ told aq ed "addAqueousPhaseWithElements" [VStr "H O Na Cl"]
    /\ told mp ed "addMineralPhase" [VStr "Halite"]
    /\ called sysb "ChemicalSystem" [ed] sys
    /\ printed ps [VStr "system = "; sys]
    /\ called pbb "EquilibriumProblem" [sys] pb
    /\ told t pb "setTemperature" [VInt 25; VStr "celsius"]
    /\ told p pb "setPressure" [VInt 1; VStr "bar"]
    /\ told w pb "add" [VStr "H2O"; VFloat (decimal 10 (-1)); VStr "kg"]
    /\ told salt pb "add" [VStr "NaCl"; VFloat (decimal 10 (-1)); VStr "mg"]
    /\ called e1 "equilibrate" [pb] st1
    /\ printed p1 [VStr "state = "; st1]
    /\ told more pb "add" [VStr "NaCl"; VFloat (decimal 10 (-1)); VStr "kg"]
    /\ called e2 "equilibrate" [pb] st2
    /\ printed p2 [VStr "state = "; st2]
    /\ amount_reported shown fmt asked st2
    /\ lookup "state" e = Some st2.

(* ----------------------------------------------------------------- *)
(** *** From the registered quantities to the curves *)



End Trace.

Import Trace.

(* ================================================================= *)
(** ** How exceptions travel *)

Module Propagation.

(** Induction over expressions that reaches the expressions inside the
    argument lists. *)
Section ExprInduction.

Variable P : expr -> Prop.
Hypothesis HName : forall x, P (EName x).
Hypothesis HInt : forall z, P (EInt z).
Hypothesis HFloat : forall m e, P (EFloat m e).
Hypothesis HStr : forall s, P (EStr s).
Hypothesis HFStr : forall ps, Forall P ps -> P (EFStr ps).
Hypothesis HList : forall es, Forall P es -> P (EList es).
Hypothesis HTuple : forall es, Forall P es -> P (ETuple es).
Hypothesis HAttr : forall e a, P e -> P (EAttr e a).
Hypothesis HCall : forall f args, P f -> Forall P args -> P (ECall f args).
Hypothesis HKeyword : forall k e, P e -> P (EKeyword k e).
Hypothesis HBin : forall op a b, P a -> P b -> P (EBin op a b).
Hypothesis HSubscript : forall e i, P e -> P i -> P (ESubscript e i).
Hypothesis HSliceAll : P ESliceAll.
Hypothesis HLambda : forall ps b, P b -> P (ELambda ps b).
Hypothesis HAwait : forall e, P e -> P (EAwait e).

Fixpoint expr_nested_ind (e : expr) : P e :=
  let all :=
    fix all (l : list expr) : Forall P l :=
      match l with
      | [] => Forall_nil P
      | x :: rest => Forall_cons x (expr_nested_ind x) (all rest)
      end in
  match e with
  | EName x => HName x
  | EInt z => HInt z
  | EFloat m e' => HFloat m e'
  | EStr s => HStr s
  | EFStr ps => HFStr ps (all ps)
  | EList es => HList es (all es)
  | ETuple es => HTuple es (all es)
  | EAttr r a => HAttr r a (expr_nested_ind r)
  | ECall f args => HCall f args (expr_nested_ind f) (all args)
  | EKeyword k x => HKeyword k x (expr_nested_ind x)
  | EBin op a b => HBin op a b (expr_nested_ind a) (expr_nested_ind b)
  | ESubscript r i => HSubscript r i (expr_nested_ind r) (expr_nested_ind i)
  | ESliceAll => HSliceAll
  | ELambda ps b => HLambda ps b (expr_nested_ind b)
  | EAwait x => HAwait x (expr_nested_ind x)
  end.

End ExprInduction.

Lemma clean_nil : clean [].
Proof. intros ev e []. Qed.

Lemma clean_app (l1 l2 : list (event * answer)) :
  clean l1 -> clean l2 -> clean (l1 ++ l2).
Proof.
  intros H1 H2 ev e Hin. apply in_app_or in Hin.
  destruct Hin as [Hin | Hin]; [exact (H1 _ _ Hin) | exact (H2 _ _ Hin)].
Qed.

Lemma clean_cons_ok (ev : event) (v : value) (l : list (event * answer)) :
  clean l -> clean ((ev, inr v) :: l).
Proof.
  intros Hl ev' e [Heq | Hin]; [discriminate | exact (Hl _ _ Hin)].
Qed.

Section WithHost.

Variable H : Host.

Lemma transparent_ret {A : Type} (a : A) : transparent (ret H a).
Proof. intros s. exists []. split; [reflexivity | left; apply clean_nil]. Qed.

Lemma transparent_raise {A : Type} (e : exn) : transparent (@raise H A e).
Proof. intros s. exists []. split; [reflexivity | left; apply clean_nil]. Qed.

Lemma transparent_unsupported {A : Type} : transparent (@unsupported H A).
Proof. intros s. exists []. split; [reflexivity | left; apply clean_nil]. Qed.

Lemma transparent_perform (ev : event) : transparent (perform H ev).
Proof.
  intros s. unfold perform.
  destruct (react H ev (wld s)) as [w' [e | v]]; simpl.
  - exists [(ev, inl e)]. split; [reflexivity |].
    right. exists ev, e, []. repeat split. apply clean_nil.
  - exists [(ev, inr v)]. split; [reflexivity |].
    left. apply clean_cons_ok, clean_nil.
Qed.

Lemma transparent_bind {A B : Type} (m : M H A) (k : A -> M H B) :
  transparent m -> (forall a, transparent (k a)) -> transparent (bind H m k).
Proof.
  intros Hm Hk s. unfold bind. specialize (Hm s).
  destruct (m s) as [s1 [a | e | ]]; simpl in *.
  2: { destruct Hm as (new1 & Hlog1 & [Hclean1 | (ev & e' & rest & Hnew & Hrest & Ho)]);
         exists new1; (split; [exact Hlog1 |]); [left; exact Hclean1 |].
       right. exists ev, e', rest. inversion Ho. repeat split; assumption. }
  2: { destruct Hm as (new1 & Hlog1 & [Hclean1 | (ev & e' & rest & _ & _ & Habs)]);
         [| discriminate].
       exists new1. split; [exact Hlog1 | left; exact Hclean1]. }
  destruct Hm as (new1 & Hlog1 & [Hclean1 | (ev & e & rest & _ & _ & Habs)]);
    [| discriminate].
  specialize (Hk a s1).
  destruct Hk as (new2 & Hlog2 & Hcase).
  exists (new2 ++ new1). split.
  - rewrite Hlog2, Hlog1. apply app_assoc.
  - destruct Hcase as [Hclean2 | (ev & e & rest & Hnew & Hrest & Ho)].
    + left. apply clean_app; assumption.
    + right. exists ev, e, (rest ++ new1). subst new2. repeat split.
      * apply clean_app; assumption.
      * exact Ho.
Qed.

Lemma transparent_get_name (x : string) : transparent (get_name H x).
Proof.
  intros s. unfold get_name. destruct (lookup x (env s)).
  - exists []. split; [reflexivity | left; apply clean_nil].
  - apply transparent_perform.
Qed.

Lemma transparent_set_name (x : string) (v : value) : transparent (set_name H x v).
Proof. intros s. exists []. split; [reflexivity | left; apply clean_nil]. Qed.

Lemma transparent_format_part (v : value) : transparent (format_part H v).
Proof.
  destruct v; simpl; try apply transparent_ret;
    (apply transparent_bind; [apply transparent_perform |];
     intros []; first [apply transparent_ret | apply transparent_raise]).
Qed.

Lemma transparent_check_length (n : nat) (vs : list value) :
  transparent (check_length H n vs).
Proof.
  unfold check_length. destruct (Nat.eqb _ _);
    [apply transparent_ret | apply transparent_raise].
Qed.

Lemma transparent_unpack (v : value) (n : nat) : transparent (unpack H v n).
Proof.
  destruct v; simpl; try apply transparent_check_length;
    (apply transparent_bind; [apply transparent_perform |];
     intros []; first [apply transparent_check_length | apply transparent_raise]).
Qed.

Lemma transparent_set_names (xs : list string) :
  forall vs, transparent (set_names H xs vs).
Proof.
  induction xs as [| x xs IH]; intros [| v vs]; simpl; try apply transparent_ret.
  apply transparent_bind; [apply transparent_set_name | intros _; apply IH].
Qed.

Lemma transparent_assign_target (t : target) (v : value) :
  transparent (assign_target H t v).
Proof.
  destruct t; simpl.
  - apply transparent_set_name.
  - apply transparent_bind; [apply transparent_unpack | intros; apply transparent_set_names].
Qed.

(** Every expression lets exceptions through (the second half of the
    statement serves the keyword arguments of calls). *)
Lemma transparent_eval_aux (e : expr) :
  transparent (eval H e) /\
  match e with EKeyword _ x => transparent (eval H x) | _ => True end.
Proof.
  induction e using expr_nested_ind; simpl;
    (split; [| try exact I]);
    try apply transparent_ret; try apply transparent_unsupported;
    try apply transparent_get_name.
  - (* f-string *)
    generalize "".
    induction H0 as [| p ps [Hp _] _ IH]; intros acc.
    + apply transparent_ret.
    + apply transparent_bind; [exact Hp |]. intros v.
      apply transparent_bind; [apply transparent_format_part |]. intros s. apply IH.
  - (* list *)
    apply transparent_bind; [| intros; apply transparent_ret].
    induction H0 as [| p ps [Hp _] _ IH].
    + apply transparent_ret.
    + apply transparent_bind; [exact Hp |]. intros v.
      apply transparent_bind; [exact IH | intros; apply transparent_ret].
  - (* tuple *)
    apply transparent_bind; [| intros; apply transparent_ret].
    induction H0 as [| p ps [Hp _] _ IH].
    + apply transparent_ret.
    + apply transparent_bind; [exact Hp |]. intros v.
      apply transparent_bind; [exact IH | intros; apply transparent_ret].
  - (* attribute *)
    apply transparent_bind; [apply IHe | intros; apply transparent_perform].
  - (* call *)
    apply transparent_bind; [apply IHe |]. intros fv.
    apply transparent_bind; [| intros; apply transparent_perform].
    induction H0 as [| p ps [Hp Hk] _ IH].
    + apply transparent_ret.
    + destruct p;
        (apply transparent_bind; [first [exact Hk | exact Hp] |]; intros v;
         apply transparent_bind; [exact IH | intros; apply transparent_ret]).
  - (* keyword *)
    apply IHe.
  - (* binary operation *)
    apply transparent_bind; [apply IHe1 |]. intros va.
    apply transparent_bind; [apply IHe2 | intros; apply transparent_perform].
  - (* subscript *)
    apply transparent_bind; [apply IHe1 |]. intros v.
    apply transparent_bind; [apply IHe2 | intros; apply transparent_perform].
Qed.

Lemma transparent_eval (e : expr) : transparent (eval H e).
Proof. apply transparent_eval_aux. Qed.

(** Simple statements let exceptions through, and so do sequences of
    them. *)
Lemma transparent_exec (s : stmt) : is_simple s = true -> transparent (exec H s).
Proof.
  destruct s; simpl; try discriminate; intros _.
  - apply transparent_bind; [apply transparent_perform | intros; apply transparent_ret].
  - apply transparent_bind; [apply transparent_perform | intros; apply transparent_set_name].
  - apply transparent_bind; [apply transparent_eval | intros; apply transparent_ret].
  - apply transparent_bind; [apply transparent_eval | intros; apply transparent_assign_target].
Qed.

Lemma transparent_exec_block (l : list stmt) :
  forallb is_simple l = true -> transparent (exec_block H l).
Proof.
  induction l as [| s l IH]; simpl; intros Hl.
  - apply transparent_ret.
  - apply andb_prop in Hl. destruct Hl as [Hs Hl].
    apply transparent_bind; [apply transparent_exec, Hs | intros _; apply IH, Hl].
Qed.

(** Running [a ++ b] is running [a] to completion and then [b]. *)
Lemma exec_block_app (a b : list stmt) (s : state H) :
  exec_block H (a ++ b) s =
  match exec_block H a s with
  | (s1, Ok _) => exec_block H b s1
  | r => r
  end.
Proof.
  revert s. induction a as [| x a IH]; intros s; simpl.
  - reflexivity.
  - unfold bind. destruct (exec H x s) as [s1 [[] | e | ]]; [apply IH | reflexivity ..].
Qed.

End WithHost.

End Propagation.

Import Propagation.

(* ================================================================= *)
(** ** Properties read off the code *)

Module Shape.

Ltac decide_all := repeat constructor; vm_compute; repeat split; reflexivity.

(** The star imports are the first statements of every notebook: no
    assignment made by a notebook is overwritten by an import, which is
    what lets the interpreter look a name up among the notebook's own
    variables first and ask the host only for the others. *)
Lemma star_imports_come_first :
  Forall (fun nb => star_imports_first nb = true) notebooks.
Proof. decide_all. Qed.

(** C1, as stated, fails: it is not the case that no notebook computes with
    arithmetic of its own.  The Evian notebook subtracts [lnK] from [lnQ]
    and passes the difference to [math.exp] to obtain each saturation
    index. *)
Lemma evian_computes_saturation_itself :
  ~ Forall (fun nb => arithmetic_free nb = true) notebooks
  /\ In (saturation_ratio "calcite") (code eq_evian_water_analysis)
  /\ In (assign "SI_calcite" (call "exp" [var "SR_calcite"]))
        (code eq_evian_water_analysis).
Proof.
  split; [| split].
  - intros Hall. inversion Hall as [| nb l Hev _]. vm_compute in Hev. discriminate.
  - vm_compute. repeat first [left; reflexivity | right].
  - vm_compute. repeat first [left; reflexivity | right].
Qed.

(** C1, amended: no notebook defines a function, class or lambda, and every
    call goes to a global name the notebook never binds or to an attribute
    of a value, so every call leaves the notebook; the kinetics,
    equilibrium-path and sodium-chloride notebooks contain no arithmetic at
    all; in no notebook does a statement that solves (equilibrate, solve,
    execute) contain arithmetic; the Evian notebook computes with its own
    arithmetic in exactly twelve statements: the eight ion amounts, the
    silica amount and the three saturation ratios. *)
Theorem computation_is_delegated_except_in_evian :
  Forall (fun nb => defines_nothing nb = true /\ calls_external nb = true) notebooks
  /\ Forall (fun nb => arithmetic_free nb = true)
       [kin_calcite_hcl; eq_equilibriumpath; eq_sodium_chloride_solubility_in_water]
  /\ Forall (fun nb =>
       none (fun s => stmt_has is_solve_call s && stmt_has is_arith s) (code nb) = true)
       notebooks
  /\ computing_statements eq_evian_water_analysis =
       evian_ions
       ++ [add_silica; saturation_ratio "calcite"; saturation_ratio "dolomite";
           saturation_ratio "quartz"].
Proof. repeat split; decide_all. Qed.

(** C3, as stated, fails: the notebooks are not all ordered import, build,
    solve, print/plot.  In the sodium-chloride notebook the statement at
    position 6 prints the system before the first solve at position 12, and
    the statement at position 14 adds salt to the problem after it. *)
Lemma phases_are_interleaved :
  ~ Forall (fun nb => straight_line nb = true /\ phase_ordered nb = true) notebooks
  /\ nth_error (code eq_sodium_chloride_solubility_in_water) 6
     = Some (SExpr (call "print" [EStr "system = "; var "system"]))
  /\ nth_error (code eq_sodium_chloride_solubility_in_water) 12
     = Some (assign "state" (call "equilibrate" [var "problem"]))
  /\ nth_error (code eq_sodium_chloride_solubility_in_water) 14
     = Some (SExpr (meth (var "problem") "add" [EStr "NaCl"; EFloat 10 (-1); EStr "kg"])).
Proof.
  split; [| repeat split].
  intros Hall.
  apply Forall_forall with (x := eq_sodium_chloride_solubility_in_water) in Hall.
  - destruct Hall as [_ Hord]. vm_compute in Hord. discriminate.
  - simpl. tauto.
Qed.

(** C3, amended: every notebook is a straight-line sequence of imports,
    expression statements and assignments (no loop, branch or function
    definition) that starts with [from reaktoro import *]; every name a
    statement reads has been bound by an earlier statement of the notebook,
    except the names that no statement of the notebook binds at all, which
    are listed: they are left to the star imports and the builtins, and
    among them is [numpy] in the kinetics notebook, which imports only
    reaktoro and matplotlib.  So no solve call reads a variable that is
    built later; and every plot follows the last solve and the loading of
    the results. *)
Theorem straight_line_and_bound_before_use :
  Forall (fun nb =>
            straight_line nb = true
            /\ simple_statements nb = true
            /\ hd_error (code nb) = Some (SImportStar "reaktoro")
            /\ defined_before_use nb = true
            /\ plots_follow_solve nb = true) notebooks
  /\ map unbound_reads notebooks
     = [ [ "Database"; "ChemicalEditor"; "ChemicalSystem"; "ReactionEquation";
           "Reaction"; "EquilibriumInverseProblem"; "equilibrate"; "print"; "exp";
           "Phreeqc" ];
         [ "ChemicalEditor"; "ChemicalSystem"; "ReactionSystem"; "Partition";
           "EquilibriumProblem"; "equilibrate"; "KineticPath"; "numpy" ];
         [ "ChemicalEditor"; "ChemicalSystem"; "EquilibriumProblem"; "equilibrate";
           "EquilibriumPath" ];
         [ "Database"; "ChemicalEditor"; "ChemicalSystem"; "print";
           "EquilibriumProblem"; "equilibrate" ] ]
  /\ map imported_modules notebooks
     = [ ["reaktoro"; "math"];
         ["reaktoro"; "matplotlib.pyplot"];
         ["reaktoro"; "matplotlib.pyplot"; "numpy"];
         ["reaktoro"] ].
Proof. repeat split; decide_all. Qed.




(** C9: no notebook defines a class, a function or a lambda, and every
    assignment binds a number (a literal or the result of arithmetic), a
    string literal, the result of a call, or a part of a value already held
    in a variable.  The parts are the transposed array [filearray.T] and, in
    the kinetics notebook, the row [data[time_indx, :]], both taken from the
    array that [loadtxt] returned.  The only lists and tuples written in a
    notebook are in the kinetics notebook and none is bound to a variable:
    the list [["Calcite"]] is passed to [setKineticSpecies], the tuple
    [0.0, 5.0] is taken apart into the numbers [t0] and [t1] at once, and
    [time_indx, :] is the index of a subscript. *)
Theorem notebooks_bind_only_plain_values :
  Forall (fun nb => defines_nothing nb = true /\ plain_bindings nb = true) notebooks
  /\ map part_bindings notebooks
     = [ [];
         [ assign "data" (EAttr (var "filearray") "T");
           assign "time" (ESubscript (var "data") (ETuple [var "time_indx"; ESliceAll])) ];
         [ assign "data" (EAttr (var "filearray") "T") ];
         [] ]
  /\ map tuple_bindings notebooks = [[]; [kin_times]; []; []]
  /\ map container_literals notebooks
     = [ [];
         [ EList [EStr "Calcite"];
           ETuple [EFloat 0 (-1); EFloat 50 (-1)];
           ETuple [var "time_indx"; ESliceAll] ];
         [];
         [] ].
Proof. repeat split; decide_all. Qed.

End Shape.

(* ================================================================= *)
(** ** Properties of the runs *)

Module Runs.

Lemma exec_block_cons_ok (H : Host) (x : stmt) (l : list stmt) (s s' : state H) :
  exec_block H (x :: l) s = (s', Ok tt) ->
  exists s1, exec H x s = (s1, Ok tt) /\ exec_block H l s1 = (s', Ok tt).
Proof.
  simpl. unfold bind. destruct (exec H x s) as [s1 [[] | e | ]]; try discriminate.
  intros Hl. exists s1. split; [reflexivity | exact Hl].
Qed.

Lemma exec_block_nil_ok (H : Host) (s s' : state H) :
  exec_block H [] s = (s', Ok tt) -> s' = s.
Proof. simpl. unfold ret. congruence. Qed.

(** Whatever runs only adds to the log. *)
Lemma log_grows (H : Host) (l : list stmt) (s : state H) :
  forallb is_simple l = true ->
  exists new, log (fst (exec_block H l s)) = new ++ log s.
Proof.
  intros Hl. destruct (transparent_exec_block H l Hl s) as (new & Hnew & _).
  exists new. exact Hnew.
Qed.

(** In a run of simple statements, a failed host operation is the last
    operation of the run and its exception is the outcome. *)
Lemma simple_run_propagates (H : Host) (nb : notebook) (w : world H) :
  simple_statements nb = true ->
  forall ev e,
    In (ev, inl e) (log (fst (run H nb w))) ->
    snd (run H nb w) = Raise e
    /\ exists rest, log (fst (run H nb w)) = (ev, inl e) :: rest /\ clean rest.
Proof.
  intros Hsimple ev e Hin. unfold run in *.
  destruct (transparent_exec_block H (code nb) Hsimple (initial H w))
    as (new & Hlog & Hcase).
  change (log (initial H w)) with (@nil (event * answer)) in Hlog.
  rewrite app_nil_r in Hlog. rewrite Hlog in Hin |- *. clear Hlog.
  destruct Hcase as [Hclean | (ev' & e' & rest & Hnew & Hrest & Ho)].
  - exfalso. exact (Hclean _ _ Hin).
  - rewrite Hnew in Hin |- *. clear Hnew. simpl in Hin. destruct Hin as [Heq | Hin].
    + inversion Heq; subst. split; [exact Ho |]. exists rest. split; [reflexivity | exact Hrest].
    + exfalso. exact (Hrest _ _ Hin).
Qed.

(** C4: no statement of any notebook is a [try] or lies inside one, and in
    every run on every host, if a host operation (a library call among
    them) raises, the run ends there with that very exception as its
    outcome: the failing operation is the newest entry of the log and no
    operation before it failed. *)
Theorem failures_leave_the_notebook_unchanged (H : Host) (w : world H) :
  Forall (fun nb =>
            try_free nb = true
            /\ forall ev e,
                 In (ev, inl e) (log (fst (run H nb w))) ->
                 snd (run H nb w) = Raise e
                 /\ exists rest,
                      log (fst (run H nb w)) = (ev, inl e) :: rest /\ clean rest)
         notebooks.
Proof.
  unfold notebooks.
  repeat (apply Forall_cons;
          [split; [reflexivity | apply simple_run_propagates; reflexivity] |]).
  apply Forall_nil.
Qed.

Lemma failures_leave_the_notebook_unchanged_witness :
  snd (run (faulty 62) kin_calcite_hcl (0, lab_start)) = Raise out_of_memory
  /\ exists rest,
       log (fst (run (faulty 62) kin_calcite_hcl (0, lab_start)))
       = (EvApply (VTuple [VObj 19; VStr "solve"])
            [VObj 18; VFloat (decimal 0 (-1)); VFloat (decimal 50 (-1)); VStr "minute"] [],
          inl out_of_memory) :: rest
       /\ clean rest.
Proof.
  pose proof (failures_leave_the_notebook_unchanged (faulty 62) (0, lab_start)) as Hall.
  apply Forall_forall with (x := kin_calcite_hcl) in Hall; [| simpl; tauto].
  destruct Hall as [_ Hrun].
  apply Hrun. vm_compute. left. reflexivity.
Defined.

(** With a handler around it the same failure would be swallowed: the
    property above is one of the notebooks, not of the interpreter. *)
Example a_handler_would_recover :
  let guarded := [Code [STry [kin_equilibrate] [assign "state0" (EStr "none")]]] in
  snd (run (faulty 0) guarded (0, lab_start)) = Ok tt
  /\ In (EvGlobal "equilibrate", inl out_of_memory)
        (log (fst (run (faulty 0) guarded (0, lab_start)))).
Proof. vm_compute. split; [reflexivity | left; reflexivity]. Qed.

(* ----------------------------------------------------------------- *)
(** *** Symbolic execution *)

(** One host operation of a statement under execution: both answers are
    considered, a failure contradicts the assumed normal completion. *)
Ltac host_step E :=
  match type of E with
  | context [react ?H ?ev ?w] =>
      let w' := fresh "w" in
      let a := fresh "a" in
      let x := fresh "x" in
      let R := fresh "R" in
      destruct (react H ev w) as [w' [x | a]] eqn:R;
      cbv beta iota zeta in E; try discriminate E
  end.

(** The first statement of a block that completes normally. *)
Ltac stmt_step Hrun :=
  let s1 := fresh "s" in
  let E := fresh "E" in
  apply exec_block_cons_ok in Hrun;
  destruct Hrun as (s1 & E & Hrun);
  cbv -[react world] in E;
  repeat host_step E;
  try discriminate E;
  injection E as <-.

Ltac forget_log Hrun :=
  match type of Hrun with
  | context [Build_state _ _ _ ?l] =>
      let l' := fresh "l" in
      set (l' := l) in Hrun; clearbody l'
  end.

Ltac forget_answers :=
  repeat match goal with
         | R : react _ _ _ = _ |- _ => clear R
         end;
  repeat match goal with
         | w : world _ |- _ => clear w
         end.

(** The same, keeping only the variables: for the statements that lead up
    to the ones under study. *)
Ltac stmt_skip Hrun := stmt_step Hrun; forget_answers; forget_log Hrun.

Ltac block_done Hrun :=
  apply exec_block_nil_ok in Hrun; subst.

Ltac unfold_code Hrun :=
  match type of Hrun with
  | exec_block _ ?c _ = _ =>
      let c' := eval cbv in c in change c with c' in Hrun
  end.

(* ----------------------------------------------------------------- *)
(** *** The ion amounts of the Evian notebook *)

Ltac amount_at k :=
  unfold molar_amount_added; do 8 eexists; exists k; reflexivity.

(** C2: in every run of the Evian notebook that completes the cell of
    lines 100-115, on every host, the amount passed to [problem.add] for
    each of Ca++, Cl-, HCO3-, Mg++, NO3-, K+ and Na+ is the labelled
    concentration times 1e-6 divided by the molar mass of that same species
    as queried from [system], while for SO4-- the divisor is the molar mass
    of the species named S2O4--. *)
Theorem ion_amounts_divide_by_molar_mass (H : Host) (w : world H) (s0 s' : state H) :
  exec_block H (code evian_setup) (initial H w) = (s0, Ok tt) ->
  exec_block H evian_ions s0 = (s', Ok tt) ->
  exists sys pb,
    lookup "system" (env s0) = Some sys
    /\ lookup "problem" (env s0) = Some pb
    /\ molar_amount_added (log s') sys pb "Ca++" (VInt 80) "Ca++"
    /\ molar_amount_added (log s') sys pb "Cl-" (VFloat (decimal 68 (-1))) "Cl-"
    /\ molar_amount_added (log s') sys pb "HCO3-" (VInt 350) "HCO3-"
    /\ molar_amount_added (log s') sys pb "Mg++" (VInt 26) "Mg++"
    /\ molar_amount_added (log s') sys pb "NO3-" (VFloat (decimal 37 (-1))) "NO3-"
    /\ molar_amount_added (log s') sys pb "K+" (VInt 1) "K+"
    /\ molar_amount_added (log s') sys pb "Na+" (VFloat (decimal 65 (-1))) "Na+"
    /\ molar_amount_added (log s') sys pb "SO4--" (VFloat (decimal 126 (-1))) "S2O4--".
Proof.
  intros Hsetup Hions.
  unfold_code Hsetup. unfold initial in Hsetup.
  repeat stmt_skip Hsetup.
  block_done Hsetup.
  unfold_code Hions.
  repeat (stmt_step Hions; forget_answers).
  block_done Hions.
  eexists. eexists.
  split; [reflexivity |]. split; [reflexivity |].
  cbn [log].
  repeat split;
    [ amount_at 56 | amount_at 48 | amount_at 40 | amount_at 32
    | amount_at 24 | amount_at 16 | amount_at 8 | amount_at 0 ].
Qed.

Lemma ion_amounts_divide_by_molar_mass_witness :
  let s0 := fst (exec_block lab (code evian_setup) (initial lab lab_start)) in
  let s' := fst (exec_block lab evian_ions s0) in
  exists sys pb,
    lookup "system" (env s0) = Some sys
    /\ lookup "problem" (env s0) = Some pb
    /\ molar_amount_added (log s') sys pb "Ca++" (VInt 80) "Ca++"
    /\ molar_amount_added (log s') sys pb "Cl-" (VFloat (decimal 68 (-1))) "Cl-"
    /\ molar_amount_added (log s') sys pb "HCO3-" (VInt 350) "HCO3-"
    /\ molar_amount_added (log s') sys pb "Mg++" (VInt 26) "Mg++"
    /\ molar_amount_added (log s') sys pb "NO3-" (VFloat (decimal 37 (-1))) "NO3-"
    /\ molar_amount_added (log s') sys pb "K+" (VInt 1) "K+"
    /\ molar_amount_added (log s') sys pb "Na+" (VFloat (decimal 65 (-1))) "Na+"
    /\ molar_amount_added (log s') sys pb "SO4--" (VFloat (decimal 126 (-1))) "S2O4--".
Proof.
  apply (ion_amounts_divide_by_molar_mass lab lab_start); vm_compute; reflexivity.
Defined.

(** On the laboratory host, where arithmetic is exact and every molar mass
    is 0.1 kg/mol, calcium is added as 80e-6 / 0.1 = 1/1250 mol. *)
Example calcium_amount_in_the_lab :
  let s0 := fst (exec_block lab (code evian_setup) (initial lab lab_start)) in
  let s' := fst (exec_block lab evian_ions s0) in
  In (EvApply (VTuple [VObj 13; VStr "add"]) [VStr "Ca++"; VFloat (1 # 1250); VStr "mol"] [],
      inr (VObj 18))
     (log s').
Proof. vm_compute. do 56 right. left. reflexivity. Qed.

(* ----------------------------------------------------------------- *)
(** *** The PHREEQC script *)

Ltac host_case E :=
  match type of E with
  | context [react ?H ?ev ?w] =>
      let w' := fresh "w" in
      let a := fresh "a" in
      let x := fresh "x" in
      let R := fresh "R" in
      destruct (react H ev w) as [w' [x | a]] eqn:R;
      cbv beta iota zeta in E
  end.

(** C6: in the Evian notebook [ex1] is bound once, to the string literal,
    and read once, as the whole argument of [phreeqc.execute]; and in every
    run that reaches the cell binding [ex1], on every host, the only
    operations of the three cells are the construction of the Phreeqc
    object and the application of its [execute] to exactly the text of the
    literal. *)
Theorem script_is_passed_verbatim (H : Host) (w : world H) (s0 s' : state H)
    (o : outcome unit) :
  exec_block H (code (evian_setup ++ [Code evian_ions] ++ evian_equilibrium))
    (initial H w) = (s0, Ok tt) ->
  exec_block H (code evian_phreeqc) s0 = (s', o) ->
  filter (fun s => mem "ex1" (binds s)) (code eq_evian_water_analysis)
  = [assign "ex1" (EStr ex1_text)]
  /\ filter (fun s => mem "ex1" (reads s)) (code eq_evian_water_analysis)
     = [SExpr (meth (var "phreeqc") "execute" [var "ex1"])]
  /\ script_handed_over (log s0) (log s') o.
Proof.
  intros Hreach Hrun.
  split; [reflexivity |]. split; [reflexivity |].
  unfold_code Hreach. unfold initial in Hreach.
  repeat stmt_skip Hreach.
  block_done Hreach.
  cbv -[react world] in Hrun.
  unfold script_handed_over.
  repeat host_case Hrun; injection Hrun as <- <-; cbn [log].
  - left. eexists. split; reflexivity.
  - right; left. do 2 eexists. split; reflexivity.
  - right; right; left. do 3 eexists. split; reflexivity.
  - right; right; right. do 4 eexists. split; reflexivity.
  - right; right; right. do 4 eexists. split; reflexivity.
Qed.

Lemma script_is_passed_verbatim_witness :
  let s0 := fst (exec_block lab
                   (code (evian_setup ++ [Code evian_ions] ++ evian_equilibrium))
                   (initial lab lab_start)) in
  let r := exec_block lab (code evian_phreeqc) s0 in
  filter (fun s => mem "ex1" (binds s)) (code eq_evian_water_analysis)
  = [assign "ex1" (EStr ex1_text)]
  /\ filter (fun s => mem "ex1" (reads s)) (code eq_evian_water_analysis)
     = [SExpr (meth (var "phreeqc") "execute" [var "ex1"])]
  /\ script_handed_over (log s0) (log (fst r)) (snd r).
Proof.
  apply (script_is_passed_verbatim lab lab_start); vm_compute; reflexivity.
Defined.

End Runs.

Import Runs.

(* ================================================================= *)
(** ** Every run of every notebook *)

Module Outcomes.

Section WithHost.

Variable H : Host.
Variables u f : bool.

Lemma accounted_ret {A : Type} (a : A) : accounted H u f (ret H a).
Proof.
  intros s. exists []. split; [reflexivity |].
  left. split; [apply clean_nil | exists a; reflexivity].
Qed.

Lemma accounted_perform (ev : event) : accounted H u f (perform H ev).
Proof.
  intros s. unfold perform.
  destruct (react H ev (wld s)) as [w' [e | v]]; simpl.
  - exists [(ev, inl e)]. split; [reflexivity |].
    right; left. exists ev, e, []. repeat split. apply clean_nil.
  - exists [(ev, inr v)]. split; [reflexivity |].
    left. split; [apply clean_cons_ok, clean_nil | exists v; reflexivity].
Qed.

Lemma accounted_bind {A B : Type} (m : M H A) (k : A -> M H B) :
  accounted H u f m -> (forall a, accounted H u f (k a)) ->
  accounted H u f (bind H m k).
Proof.
  intros Hm Hk s. unfold bind. specialize (Hm s).
  destruct (m s) as [s1 [a | e | ]]; simpl in *;
    destruct Hm as (new1 & Hlog1 & Hcase).
  - assert (Hclean1 : clean new1).
    { destruct Hcase as [[Hc _] | [(ev & e & rest & _ & _ & Habs)
                        | [(_ & _ & e & Habs & _) | (_ & _ & e & Habs & _)]]];
        [exact Hc | discriminate ..]. }
    destruct (Hk a s1) as (new2 & Hlog2 & Hcase2).
    exists (new2 ++ new1). split.
    + rewrite Hlog2, Hlog1. apply app_assoc.
    + destruct Hcase2 as [[Hc [b Hb]] | [(ev & e & rest & Hnew & Hrest & Ho)
                         | [(Hu & Hc & Ho) | (Hf & Hc & Ho)]]].
      * left. split; [apply clean_app; assumption | exists b; exact Hb].
      * right; left. exists ev, e, (rest ++ new1). subst new2.
        repeat split; [apply clean_app; assumption | exact Ho].
      * right; right; left.
        split; [exact Hu | split; [apply clean_app; assumption | exact Ho]].
      * right; right; right.
        split; [exact Hf | split; [apply clean_app; assumption | exact Ho]].
  - exists new1. split; [exact Hlog1 |].
    destruct Hcase as [[_ [a Ha]] | [(ev & e' & rest & Hnew & Hrest & Ho)
                      | [(Hu & Hc & Ho) | (Hf & Hc & Ho)]]].
    + discriminate.
    + right; left. exists ev, e', rest. inversion Ho. repeat split; assumption.
    + right; right; left. destruct Ho as (e' & Ho & Ht). injection Ho as <-.
      split; [exact Hu | split; [exact Hc | exists e; split; [reflexivity | exact Ht]]].
    + right; right; right. destruct Ho as (e' & Ho & Ht). injection Ho as <-.
      split; [exact Hf | split; [exact Hc | exists e; split; [reflexivity | exact Ht]]].
  - exfalso.
    destruct Hcase as [[_ [a Ha]] | [(ev & e' & rest & _ & _ & Ho)
                      | [(_ & _ & e' & Ho & _) | (_ & _ & e' & Ho & _)]]]; discriminate.
Qed.

Lemma accounted_get_name (x : string) : accounted H u f (get_name H x).
Proof.
  intros s. unfold get_name. destruct (lookup x (env s)).
  - exists []. split; [reflexivity |].
    left. split; [apply clean_nil | eexists; reflexivity].
  - apply accounted_perform.
Qed.

Lemma accounted_set_name (x : string) (v : value) : accounted H u f (set_name H x v).
Proof.
  intros s. exists []. split; [reflexivity |].
  left. split; [apply clean_nil | exists tt; reflexivity].
Qed.

Lemma accounted_format_error {A : Type} :
  f = true -> accounted H u f (@raise H A format_error).
Proof.
  intros Hf s. exists []. split; [reflexivity |].
  right; right; right.
  split; [exact Hf | split; [apply clean_nil | exists format_error; split; reflexivity]].
Qed.

Lemma accounted_unpack_error {A : Type} :
  u = true -> accounted H u f (@raise H A unpack_error).
Proof.
  intros Hu s. exists []. split; [reflexivity |].
  right; right; left.
  split; [exact Hu | split; [apply clean_nil | exists unpack_error; split; reflexivity]].
Qed.

Lemma accounted_format_part (v : value) :
  f = true -> accounted H u f (format_part H v).
Proof.
  intros Hf.
  destruct v; simpl; try apply accounted_ret;
    (apply accounted_bind; [apply accounted_perform |];
     intros []; first [apply accounted_ret | apply accounted_format_error, Hf]).
Qed.

Lemma accounted_check_length (n : nat) (vs : list value) :
  u = true -> accounted H u f (check_length H n vs).
Proof.
  intros Hu. unfold check_length. destruct (Nat.eqb _ _);
    [apply accounted_ret | apply accounted_unpack_error, Hu].
Qed.

Lemma accounted_unpack (v : value) (n : nat) :
  u = true -> accounted H u f (unpack H v n).
Proof.
  intros Hu.
  destruct v; simpl; try apply accounted_check_length; try exact Hu;
    (apply accounted_bind; [apply accounted_perform |];
     intros []; first [apply accounted_check_length, Hu
                      | apply accounted_unpack_error, Hu]).
Qed.

Lemma accounted_set_names (xs : list string) :
  forall vs, accounted H u f (set_names H xs vs).
Proof.
  induction xs as [| x xs IH]; intros [| v vs]; simpl; try apply accounted_ret.
  apply accounted_bind; [apply accounted_set_name | intros _; apply IH].
Qed.

(** An expression of the executed fragment never gets stuck, and fails only
    where the host fails or, if it holds an f-string, where a formatted
    piece is not a string. *)
Lemma accounted_eval_aux (e : expr) :
  (executable e = true -> (formats e = true -> f = true) ->
   accounted H u f (eval H e))
  /\ match e with
     | EKeyword _ x =>
         executable x = true -> (formats x = true -> f = true) ->
         accounted H u f (eval H x)
     | _ => True
     end.
Proof.
  induction e using expr_nested_ind; simpl;
    (split; [| try exact I]);
    try (intros _ _; first [apply accounted_ret | apply accounted_get_name]);
    try (intros Habs; discriminate Habs).
  - (* f-string *)
    intros Hex Hf. specialize (Hf eq_refl).
    generalize "".
    induction H0 as [| p ps [Hp _] _ IH]; intros acc.
    + apply accounted_ret.
    + simpl in Hex. apply andb_prop in Hex. destruct Hex as [Hex1 Hex2].
      apply accounted_bind; [apply Hp; [exact Hex1 | intros _; exact Hf] |]. intros v.
      apply accounted_bind; [apply accounted_format_part, Hf |]. intros s.
      apply IH, Hex2.
  - (* list *)
    intros Hex Hf.
    apply accounted_bind; [| intros; apply accounted_ret].
    induction H0 as [| p ps [Hp _] _ IH].
    + apply accounted_ret.
    + simpl in Hex, Hf. apply andb_prop in Hex. destruct Hex as [Hex1 Hex2].
      apply accounted_bind.
      * apply Hp; [exact Hex1 |]. intros Hfp. apply Hf. rewrite Hfp. reflexivity.
      * intros v. apply accounted_bind; [| intros; apply accounted_ret].
        apply IH; [exact Hex2 |]. intros Hfp. apply Hf. rewrite Hfp. apply orb_true_r.
  - (* tuple *)
    intros Hex Hf.
    apply accounted_bind; [| intros; apply accounted_ret].
    induction H0 as [| p ps [Hp _] _ IH].
    + apply accounted_ret.
    + simpl in Hex, Hf. apply andb_prop in Hex. destruct Hex as [Hex1 Hex2].
      apply accounted_bind.
      * apply Hp; [exact Hex1 |]. intros Hfp. apply Hf. rewrite Hfp. reflexivity.
      * intros v. apply accounted_bind; [| intros; apply accounted_ret].
        apply IH; [exact Hex2 |]. intros Hfp. apply Hf. rewrite Hfp. apply orb_true_r.
  - (* attribute *)
    intros Hex Hf.
    apply accounted_bind; [apply IHe; assumption | intros; apply accounted_perform].
  - (* call *)
    intros Hex Hf. apply andb_prop in Hex. destruct Hex as [Hexf Hexa].
    apply accounted_bind.
    { apply IHe; [exact Hexf |]. intros Hff. apply Hf. rewrite Hff. reflexivity. }
    intros fv.
    apply accounted_bind; [| intros; apply accounted_perform].
    assert (Hfa : existsb formats args = true -> f = true).
    { intros Hfa. apply Hf. rewrite Hfa. apply orb_true_r. }
    clear Hf Hexf IHe.
    induction H0 as [| p ps [Hp Hk] _ IH].
    + apply accounted_ret.
    + simpl in Hexa, Hfa. apply andb_prop in Hexa. destruct Hexa as [Hex1 Hex2].
      assert (Hf1 : formats p = true -> f = true).
      { intros Hfp. apply Hfa. rewrite Hfp. reflexivity. }
      assert (Hf2 : existsb formats ps = true -> f = true).
      { intros Hfp. apply Hfa. rewrite Hfp. apply orb_true_r. }
      destruct p;
        (apply accounted_bind;
         [first [apply Hk; assumption | apply Hp; assumption] |];
         intros v;
         apply accounted_bind; [apply IH; assumption | intros; apply accounted_ret]).
  - (* keyword *)
    apply IHe.
  - (* binary operation *)
    intros Hex Hf. apply andb_prop in Hex. destruct Hex as [Hex1 Hex2].
    apply accounted_bind.
    { apply IHe1; [exact Hex1 |]. intros Hfp. apply Hf. rewrite Hfp. reflexivity. }
    intros va. apply accounted_bind; [| intros; apply accounted_perform].
    apply IHe2; [exact Hex2 |]. intros Hfp. apply Hf. rewrite Hfp. apply orb_true_r.
  - (* subscript *)
    intros Hex Hf. apply andb_prop in Hex. destruct Hex as [Hex1 Hex2].
    apply accounted_bind.
    { apply IHe1; [exact Hex1 |]. intros Hfp. apply Hf. rewrite Hfp. reflexivity. }
    intros va. apply accounted_bind; [| intros; apply accounted_perform].
    apply IHe2; [exact Hex2 |]. intros Hfp. apply Hf. rewrite Hfp. apply orb_true_r.
Qed.

Lemma accounted_eval (e : expr) :
  executable e = true -> (formats e = true -> f = true) -> accounted H u f (eval H e).
Proof. apply accounted_eval_aux. Qed.

Lemma accounted_exec (s : stmt) :
  runnable s = true ->
  (unpacks s = true -> u = true) ->
  (stmt_formats s = true -> f = true) ->
  accounted H u f (exec H s).
Proof.
  unfold runnable, stmt_formats.
  destruct s; simpl; try discriminate; intros Hex Hu Hf.
  - apply accounted_bind; [apply accounted_perform | intros; apply accounted_ret].
  - apply accounted_bind; [apply accounted_perform | intros; apply accounted_set_name].
  - rewrite andb_true_r in Hex. rewrite orb_false_r in Hf.
    apply accounted_bind; [apply accounted_eval; assumption | intros; apply accounted_ret].
  - rewrite andb_true_r in Hex. rewrite orb_false_r in Hf.
    apply accounted_bind; [apply accounted_eval; assumption |]. intros v.
    destruct t; simpl.
    + apply accounted_set_name.
    + apply accounted_bind;
        [apply accounted_unpack, Hu; reflexivity | intros; apply accounted_set_names].
Qed.

Lemma accounted_exec_block (l : list stmt) :
  forallb runnable l = true ->
  (existsb unpacks l = true -> u = true) ->
  (existsb stmt_formats l = true -> f = true) ->
  accounted H u f (exec_block H l).
Proof.
  induction l as [| s l IH]; simpl; intros Hl Hu Hf.
  - apply accounted_ret.
  - apply andb_prop in Hl. destruct Hl as [Hs Hl].
    apply accounted_bind.
    + apply accounted_exec; [exact Hs | |].
      * intros E. apply Hu. rewrite E. reflexivity.
      * intros E. apply Hf. rewrite E. reflexivity.
    + intros _. apply IH; [exact Hl | |].
      * intros E. apply Hu. rewrite E. apply orb_true_r.
      * intros E. apply Hf. rewrite E. apply orb_true_r.
Qed.

(* ----------------------------------------------------------------- *)
(** *** The variables *)

Lemma keeps_env_ret {A : Type} (a : A) : keeps_env H (ret H a).
Proof. intros s. reflexivity. Qed.

Lemma keeps_env_raise {A : Type} (e : exn) : keeps_env H (@raise H A e).
Proof. intros s. reflexivity. Qed.

Lemma keeps_env_unsupported {A : Type} : keeps_env H (@unsupported H A).
Proof. intros s. reflexivity. Qed.

Lemma keeps_env_perform (ev : event) : keeps_env H (perform H ev).
Proof.
  intros s. unfold perform.
  destruct (react H ev (wld s)) as [w' [e | v]]; reflexivity.
Qed.

Lemma keeps_env_bind {A B : Type} (m : M H A) (k : A -> M H B) :
  keeps_env H m -> (forall a, keeps_env H (k a)) -> keeps_env H (bind H m k).
Proof.
  intros Hm Hk s. unfold bind. specialize (Hm s).
  destruct (m s) as [s1 [a | e | ]]; simpl in *; [| exact Hm ..].
  rewrite (Hk a s1). exact Hm.
Qed.

Lemma keeps_env_get_name (x : string) : keeps_env H (get_name H x).
Proof.
  intros s. unfold get_name. destruct (lookup x (env s)); [reflexivity |].
  apply keeps_env_perform.
Qed.

Lemma keeps_env_format_part (v : value) : keeps_env H (format_part H v).
Proof.
  destruct v; simpl; try apply keeps_env_ret;
    (apply keeps_env_bind; [apply keeps_env_perform |];
     intros []; first [apply keeps_env_ret | apply keeps_env_raise]).
Qed.

(** Evaluating an expression binds no variable. *)
Lemma keeps_env_eval_aux (e : expr) :
  keeps_env H (eval H e)
  /\ match e with
     | EKeyword _ x => keeps_env H (eval H x)
     | _ => True
     end.
Proof.
  induction e using expr_nested_ind; simpl;
    (split; [| try exact I]);
    try first [apply keeps_env_ret | apply keeps_env_get_name
              | apply keeps_env_unsupported].
  - generalize "".
    induction H0 as [| p ps [Hp _] _ IH]; intros acc.
    + apply keeps_env_ret.
    + apply keeps_env_bind; [exact Hp |]. intros v.
      apply keeps_env_bind; [apply keeps_env_format_part |]. intros s. apply IH.
  - apply keeps_env_bind; [| intros; apply keeps_env_ret].
    induction H0 as [| p ps [Hp _] _ IH]; [apply keeps_env_ret |].
    apply keeps_env_bind; [exact Hp |]. intros v.
    apply keeps_env_bind; [exact IH | intros; apply keeps_env_ret].
  - apply keeps_env_bind; [| intros; apply keeps_env_ret].
    induction H0 as [| p ps [Hp _] _ IH]; [apply keeps_env_ret |].
    apply keeps_env_bind; [exact Hp |]. intros v.
    apply keeps_env_bind; [exact IH | intros; apply keeps_env_ret].
  - apply keeps_env_bind; [apply IHe | intros; apply keeps_env_perform].
  - apply keeps_env_bind; [apply IHe |]. intros fv.
    apply keeps_env_bind; [| intros; apply keeps_env_perform].
    induction H0 as [| p ps [Hp Hk] _ IH]; [apply keeps_env_ret |].
    destruct p;
      (apply keeps_env_bind; [first [exact Hk | exact Hp] |]; intros v;
       apply keeps_env_bind; [exact IH | intros; apply keeps_env_ret]).
  - apply IHe.
  - apply keeps_env_bind; [apply IHe1 |]. intros va.
    apply keeps_env_bind; [apply IHe2 | intros; apply keeps_env_perform].
  - apply keeps_env_bind; [apply IHe1 |]. intros va.
    apply keeps_env_bind; [apply IHe2 | intros; apply keeps_env_perform].
Qed.

Lemma keeps_env_eval (e : expr) : keeps_env H (eval H e).
Proof. apply keeps_env_eval_aux. Qed.

Lemma set_names_extends (xs : list string) :
  forall vs (s s' : state H),
    List.length vs = List.length xs ->
    set_names H xs vs s = (s', Ok tt) ->
    exists added, env s' = added ++ env s /\ map fst added = rev xs.
Proof.
  induction xs as [| x xs IH]; intros [| v vs] s s' Hlen Hrun;
    simpl in Hlen; try discriminate.
  - injection Hrun as <-. exists []. split; reflexivity.
  - simpl in Hrun. unfold bind, set_name in Hrun.
    apply IH in Hrun; [| congruence].
    destruct Hrun as (added & Henv & Hnames). simpl in Henv.
    exists (added ++ [(x, v)]). split.
    + rewrite Henv, <- app_assoc. reflexivity.
    + rewrite map_app, Hnames. reflexivity.
Qed.

Lemma check_length_ok (n : nat) (vs vs' : list value) (s s' : state H) :
  check_length H n vs s = (s', Ok vs') -> s' = s /\ vs' = vs /\ List.length vs = n.
Proof.
  unfold check_length. destruct (Nat.eqb (List.length vs) n) eqn:E; [| discriminate].
  intros Hrun. injection Hrun as <- <-. apply Nat.eqb_eq in E. auto.
Qed.

Lemma unpack_ok (v : value) (n : nat) (vs : list value) (s s' : state H) :
  unpack H v n s = (s', Ok vs) -> env s' = env s /\ List.length vs = n.
Proof.
  assert (Hdirect : forall l (t t' : state H),
             check_length H n l t = (t', Ok vs) -> env t' = env t /\ List.length vs = n).
  { intros l t t' Hc. apply check_length_ok in Hc. destruct Hc as (-> & -> & Hn). auto. }
  assert (Hasked : unpack H v n
                   = bind H (perform H (EvUnpack v n))
                       (fun r => match r with
                                 | VTuple l | VList l => check_length H n l
                                 | _ => raise H unpack_error
                                 end) ->
                   unpack H v n s = (s', Ok vs) -> env s' = env s /\ List.length vs = n).
  { intros -> Hrun. unfold bind in Hrun.
    pose proof (keeps_env_perform (EvUnpack v n) s) as Hp.
    destruct (perform H (EvUnpack v n) s) as [s1 [r | e | ]]; try discriminate.
    simpl in Hp. rewrite <- Hp.
    destruct r; try discriminate; exact (Hdirect _ _ _ Hrun). }
  destruct v; try (apply Hasked; reflexivity); apply Hdirect.
Qed.

(** A simple statement that completes adds bindings for exactly its
    targets on top of the variables there were. *)
Lemma exec_extends (x : stmt) (s s' : state H) :
  is_simple x = true ->
  exec H x s = (s', Ok tt) ->
  exists added, env s' = added ++ env s /\ map fst added = rev (binds x).
Proof.
  destruct x; try discriminate; intros _; simpl; unfold bind.
  - pose proof (keeps_env_perform (EvImportStar m) s) as Hp.
    destruct (perform H (EvImportStar m) s) as [s1 [r | e | ]]; try discriminate.
    intros Hrun. injection Hrun as <-. exists []. split; [exact Hp | reflexivity].
  - pose proof (keeps_env_perform (EvImport m) s) as Hp.
    destruct (perform H (EvImport m) s) as [s1 [r | e | ]]; try discriminate.
    intros Hrun. injection Hrun as <-. simpl in *. exists [(a, r)].
    rewrite Hp. split; reflexivity.
  - pose proof (keeps_env_eval e s) as Hp.
    destruct (eval H e s) as [s1 [r | e' | ]]; try discriminate.
    intros Hrun. injection Hrun as <-. exists []. split; [exact Hp | reflexivity].
  - pose proof (keeps_env_eval e s) as Hp.
    destruct (eval H e s) as [s1 [r | e' | ]]; try discriminate.
    simpl in Hp. destruct t; simpl.
    + intros Hrun. injection Hrun as <-. simpl. exists [(x, r)].
      rewrite Hp. split; reflexivity.
    + unfold bind.
      destruct (unpack H r (List.length xs) s1) as [s2 [vs | e' | ]] eqn:Hu;
        try discriminate.
      apply unpack_ok in Hu. destruct Hu as [Henv Hlen].
      intros Hrun. apply set_names_extends in Hrun; [| exact Hlen].
      destruct Hrun as (added & Hadd & Hnames).
      exists added. rewrite Hadd, Henv, Hp. split; [reflexivity | exact Hnames].
Qed.

(** After a block of simple statements has completed, the variables are
    those there were, below one binding for each name its statements bind,
    the newest first. *)
Lemma exec_block_extends (l : list stmt) :
  forall s s' : state H,
    forallb is_simple l = true ->
    exec_block H l s = (s', Ok tt) ->
    exists added, env s' = added ++ env s /\ map fst added = rev (flat_map binds l).
Proof.
  induction l as [| x l IH]; intros s s' Hl Hrun.
  - apply exec_block_nil_ok in Hrun. subst. exists []. split; reflexivity.
  - simpl in Hl. apply andb_prop in Hl. destruct Hl as [Hx Hl].
    apply exec_block_cons_ok in Hrun. destruct Hrun as (s1 & Hx1 & Hrest).
    destruct (exec_extends _ _ _ Hx Hx1) as (add1 & Henv1 & Hn1).
    destruct (IH _ _ Hl Hrest) as (add2 & Henv2 & Hn2).
    exists (add2 ++ add1). split.
    + rewrite Henv2, Henv1. apply app_assoc.
    + rewrite map_app, Hn2, Hn1. simpl. rewrite rev_app_distr. reflexivity.
Qed.

Lemma exec_block_binds (l : list stmt) (s s' : state H) :
  forallb is_simple l = true ->
  exec_block H l s = (s', Ok tt) ->
  map fst (env s') = rev (flat_map binds l) ++ map fst (env s).
Proof.
  intros Hl Hrun. destruct (exec_block_extends l s s' Hl Hrun) as (added & -> & <-).
  apply map_app.
Qed.

(** A block that completes, split in two. *)
Lemma exec_block_split (a b : list stmt) (s s' : state H) :
  exec_block H (a ++ b) s = (s', Ok tt) ->
  exists s1, exec_block H a s = (s1, Ok tt) /\ exec_block H b s1 = (s', Ok tt).
Proof.
  rewrite exec_block_app.
  destruct (exec_block H a s) as [s1 [[] | e | ]]; try discriminate.
  intros Hb. exists s1. split; [reflexivity | exact Hb].
Qed.

(** What a completed block of simple statements leaves behind, whatever it
    did: bindings for the names it binds on top of the variables, and
    operations on top of the log. *)
Lemma exec_block_passed (l : list stmt) (s s' : state H) :
  forallb is_simple l = true ->
  exec_block H l s = (s', Ok tt) ->
  exists added new w',
    s' = {| env := added ++ env s; wld := w'; log := new ++ log s |}
    /\ map fst added = rev (flat_map binds l).
Proof.
  intros Hl Hrun.
  destruct (exec_block_extends l s s' Hl Hrun) as (added & Henv & Hnames).
  destruct (log_grows H l s Hl) as (new & Hlog). rewrite Hrun in Hlog. simpl in Hlog.
  exists added, new, (wld s'). split; [| exact Hnames].
  destruct s' as [e' w' l']. simpl in *. subst. reflexivity.
Qed.

Lemma set_names_ok (xs : list string) :
  forall vs (s : state H),
    List.length vs = List.length xs ->
    set_names H xs vs s
    = ({| env := rev (combine xs vs) ++ env s; wld := wld s; log := log s |}, Ok tt).
Proof.
  induction xs as [| x xs IH]; intros [| v vs] s Hlen; simpl in Hlen; try discriminate.
  - destruct s. reflexivity.
  - simpl. unfold bind, set_name. rewrite IH by congruence.
    simpl. rewrite <- app_assoc. reflexivity.
Qed.

(** An assignment to a sequence of names that completes: the right-hand
    side is evaluated, its value taken apart, and the names bound to the
    parts. *)
Lemma exec_unpack_ok (xs : list string) (e : expr) (s s' : state H) :
  exec H (SAssign (TSeq xs) e) s = (s', Ok tt) ->
  exists s1 v unp vs w',
    eval H e s = (s1, Ok v)
    /\ taken_apart unp v (List.length xs) vs
    /\ s' = {| env := rev (combine xs vs) ++ env s1; wld := w'; log := unp ++ log s1 |}.
Proof.
  simpl. unfold bind.
  destruct (eval H e s) as [s1 [v | e' | ]]; try discriminate.
  destruct (unpack H v (List.length xs) s1) as [s2 [vs | e' | ]] eqn:Hu; try discriminate.
  intros Hset.
  assert (Hdirect : forall l (t : state H),
             check_length H (List.length xs) l t = (s2, Ok vs) ->
             s2 = t /\ l = vs /\ List.length vs = List.length xs).
  { intros l t Hc. apply check_length_ok in Hc. destruct Hc as (-> & -> & Hn). auto. }
  assert (Hcase : exists unp w2,
             taken_apart unp v (List.length xs) vs
             /\ s2 = {| env := env s1; wld := w2; log := unp ++ log s1 |}).
  { assert (Hasked : unpack H v (List.length xs)
                     = bind H (perform H (EvUnpack v (List.length xs)))
                         (fun r => match r with
                                   | VTuple l | VList l => check_length H (List.length xs) l
                                   | _ => raise H unpack_error
                                   end) ->
                     exists unp w2,
                       taken_apart unp v (List.length xs) vs
                       /\ s2 = {| env := env s1; wld := w2; log := unp ++ log s1 |}).
    { intros Heq. rewrite Heq in Hu. unfold bind, perform in Hu.
      destruct (react H (EvUnpack v (List.length xs)) (wld s1)) as [w2 [ex | r]];
        try discriminate.
      exists [(EvUnpack v (List.length xs), inr r)], w2.
      destruct r; try discriminate;
        apply Hdirect in Hu; destruct Hu as (-> & -> & Hn);
        (split; [split; [exact Hn | right; eexists; split; [reflexivity | auto]]
                | reflexivity]). }
    destruct v; try (apply Hasked; reflexivity);
      simpl in Hu; apply Hdirect in Hu; destruct Hu as (-> & -> & Hn);
      exists [], (wld s1);
      (split; [split; [exact Hn | left; auto] | destruct s1; reflexivity]). }
  destruct Hcase as (unp & w2 & Htaken & ->).
  rewrite set_names_ok in Hset by apply (proj1 Htaken).
  injection Hset as <-.
  exists s1, v, unp, vs, w2. split; [reflexivity |]. split; [exact Htaken | reflexivity].
Qed.

Lemma lookup_none (x : string) (e : list (string * value)) :
  lookup x e = None <-> ~ In x (map fst e).
Proof.
  induction e as [| [y v] e IH]; simpl.
  - tauto.
  - destruct (String.eqb x y) eqn:E.
    + apply String.eqb_eq in E. subst. split; [discriminate | tauto].
    + apply String.eqb_neq in E. rewrite IH. split.
      * intros Hn [Hy | Hin]; [congruence | tauto].
      * tauto.
Qed.

End WithHost.

(* ----------------------------------------------------------------- *)
(** *** The notebooks *)

(** X1: a run of a notebook, on any host, never meets a construct outside
    the executed fragment, and ends in one of these ways: normally, no
    operation having failed; or with the exception of its last operation,
    the only one that failed.  Beyond these, a run of the kinetics or of the
    equilibrium-path notebook can end with a [ValueError], where the result
    of [arange] is taken apart, and a run of the sodium-chloride notebook
    with a [TypeError], where the f-string of line 188 is formatted; in both
    no operation has failed.  The Evian notebook raises nothing that the
    host did not raise. *)
Theorem runs_end_normally_or_with_an_exception (H : Host) (w : world H) :
  accounted_for false false (log (fst (run H eq_evian_water_analysis w)))
    (snd (run H eq_evian_water_analysis w))
  /\ accounted_for true false (log (fst (run H kin_calcite_hcl w)))
       (snd (run H kin_calcite_hcl w))
  /\ accounted_for true false (log (fst (run H eq_equilibriumpath w)))
       (snd (run H eq_equilibriumpath w))
  /\ accounted_for false true
       (log (fst (run H eq_sodium_chloride_solubility_in_water w)))
       (snd (run H eq_sodium_chloride_solubility_in_water w)).
Proof.
  assert (Hrun : forall u f nb,
             forallb runnable (code nb) = true ->
             (existsb unpacks (code nb) = true -> u = true) ->
             (existsb stmt_formats (code nb) = true -> f = true) ->
             accounted_for u f (log (fst (run H nb w))) (snd (run H nb w))).
  { intros u f nb Hex Hu Hf.
    destruct (accounted_exec_block H u f (code nb) Hex Hu Hf (initial H w))
      as (new & Hlog & Hcase).
    unfold run. rewrite Hlog. simpl. rewrite app_nil_r. exact Hcase. }
  repeat split; apply Hrun; first [reflexivity | discriminate | intros _; reflexivity].
Qed.




(** X4: the kinetics notebook reads [numpy] (line 324) without importing
    it.  On a host whose star import of reaktoro does not provide that name,
    no run of the notebook completes; and a run that gets as far as line
    324, that is after [path.solve] has returned and matplotlib is imported,
    ends there with the host's exception for the unknown name as its only
    further operation, and binds nothing more. *)
Theorem kinetics_relies_on_numpy_from_the_star_import (H : Host) (e : exn)
    (w : world H) :
  (forall w0, snd (react H (EvGlobal "numpy") w0) = inl e) ->
  snd (run H kin_calcite_hcl w) <> Ok tt
  /\ forall s0,
       exec_block H (upto 25 kin_calcite_hcl) (initial H w) = (s0, Ok tt) ->
       snd (run H kin_calcite_hcl w) = Raise e
       /\ log (fst (run H kin_calcite_hcl w)) = (EvGlobal "numpy", inl e) :: log s0
       /\ env (fst (run H kin_calcite_hcl w)) = env s0.
Proof.
  intros Hnumpy.
  assert (Hstops : forall s0,
             exec_block H (upto 25 kin_calcite_hcl) (initial H w) = (s0, Ok tt) ->
             snd (run H kin_calcite_hcl w) = Raise e
             /\ log (fst (run H kin_calcite_hcl w)) = (EvGlobal "numpy", inl e) :: log s0
             /\ env (fst (run H kin_calcite_hcl w)) = env s0).
  { intros s0 Hreach.
    assert (Hnone : lookup "numpy" (env s0) = None).
    { apply lookup_none.
      assert (Hsimple : forallb is_simple (upto 25 kin_calcite_hcl) = true)
        by reflexivity.
      rewrite (exec_block_binds H _ _ _ Hsimple Hreach).
      vm_compute. intuition discriminate. }
    unfold run.
    change (code kin_calcite_hcl)
      with (upto 25 kin_calcite_hcl
            ++ firstn 1 (cell_at 25 kin_calcite_hcl)
            ++ skipn 31 (code kin_calcite_hcl)).
    rewrite exec_block_app, Hreach, exec_block_app.
    destruct s0 as [e0 w0 l0]. simpl in Hnone.
    specialize (Hnumpy w0).
    assert (Hstop : exec_block H (firstn 1 (cell_at 25 kin_calcite_hcl))
                      {| env := e0; wld := w0; log := l0 |}
                    = ({| env := e0;
                          wld := fst (react H (EvGlobal "numpy") w0);
                          log := (EvGlobal "numpy", inl e) :: l0 |}, Raise e)).
    { cbv -[react world lookup]. rewrite Hnone.
      destruct (react H (EvGlobal "numpy") w0) as [w1 a]. simpl in Hnumpy. subst a.
      reflexivity. }
    rewrite Hstop. repeat split. }
  split; [| exact Hstops].
  destruct (exec_block H (upto 25 kin_calcite_hcl) (initial H w))
    as [s0 [[] | e' | ]] eqn:Hreach.
  - destruct (Hstops s0 eq_refl) as [Ho _]. rewrite Ho. discriminate.
  - unfold run.
    change (code kin_calcite_hcl)
      with (upto 25 kin_calcite_hcl ++ skipn 30 (code kin_calcite_hcl)).
    rewrite exec_block_app, Hreach. discriminate.
  - unfold run.
    change (code kin_calcite_hcl)
      with (upto 25 kin_calcite_hcl ++ skipn 30 (code kin_calcite_hcl)).
    rewrite exec_block_app, Hreach. discriminate.
Qed.

Lemma kinetics_relies_on_numpy_from_the_star_import_witness :
  let s0 := fst (exec_block (without "numpy") (upto 25 kin_calcite_hcl)
                   (initial (without "numpy") lab_start)) in
  snd (run (without "numpy") kin_calcite_hcl lab_start) <> Ok tt
  /\ snd (run (without "numpy") kin_calcite_hcl lab_start) = Raise (name_error "numpy")
  /\ log (fst (run (without "numpy") kin_calcite_hcl lab_start))
     = (EvGlobal "numpy", inl (name_error "numpy")) :: log s0
  /\ env (fst (run (without "numpy") kin_calcite_hcl lab_start)) = env s0.
Proof.
  intros s0.
  destruct (kinetics_relies_on_numpy_from_the_star_import (without "numpy")
              (name_error "numpy") lab_start (fun w0 => eq_refl))
    as [Hnever Hstops].
  split; [exact Hnever |].
  apply Hstops. vm_compute. reflexivity.
Defined.

(* ----------------------------------------------------------------- *)
(** *** Runs that fail *)







End Outcomes.

Import Outcomes.

(* ================================================================= *)
(** ** The notebooks, cell by cell *)

Module Cells.

(** The log so far is given a name, to be unfolded at the end. *)
Ltac seal_log Hrun :=
  match type of Hrun with
  | context [Build_state _ _ _ ?l] =>
      tryif is_var l then idtac
      else (let l' := fresh "l" in
            let Hl := fresh "Hl" in
            remember l as l' eqn:Hl in Hrun)
  end.

(** A completed block is split in two. *)
Ltac split_block Hrun Hpre :=
  let s1 := fresh "s" in
  apply exec_block_split in Hrun; destruct Hrun as (s1 & Hpre & Hrun).

(** The bindings [added] with the names [Hn] says they have, one by one. *)
Ltac open_names added Hn :=
  match type of Hn with
  | _ = ?r => let r' := eval vm_compute in r in change r with r' in Hn
  end;
  repeat (destruct added as [| [? ?] added]; [discriminate Hn |];
          cbn [map fst] in Hn; injection Hn as -> Hn);
  destruct added; [| discriminate Hn]; clear Hn.

(** A block [Hpre] that has completed, of which only the bindings it left
    matter to the block [Hrun] that follows. *)
Ltac pass Hpre Hrun :=
  let added := fresh "added" in
  let new := fresh "new" in
  let w' := fresh "w" in
  let Hs := fresh "Hs" in
  let Hn := fresh "Hn" in
  apply exec_block_passed in Hpre; [| reflexivity];
  destruct Hpre as (added & new & w' & Hs & Hn);
  open_names added Hn;
  rewrite Hs in Hrun; clear Hs;
  cbn [env wld log initial app] in Hrun;
  seal_log Hrun.

(** One host operation of the statement [E], which completes normally: the
    operation did not fail.  How the host answered is of no further
    interest, only what it answered. *)
Ltac host_ok E :=
  match type of E with
  | context [react ?H ?ev ?w] =>
      let p := fresh "p" in
      let w' := fresh "w" in
      let a := fresh "a" in
      let x := fresh "x" in
      let R := fresh "R" in
      remember (react H ev w) as p eqn:R in E; clear R;
      destruct p as [w' [x | a]];
      cbv beta iota zeta in E; try discriminate E
  end.

(** One statement of a block that completes normally; what it logged is
    kept. *)
Ltac stmt_keep Hrun :=
  let s1 := fresh "s" in
  let E := fresh "E" in
  apply exec_block_cons_ok in Hrun;
  destruct Hrun as (s1 & E & Hrun);
  cbv -[react world] in E;
  repeat host_ok E;
  try discriminate E;
  injection E as <-;
  seal_log Hrun.

(** The same for an assignment to a sequence of names; [Htaken] tells how
    the value was taken apart. *)
Ltac stmt_unpack Hrun Htaken :=
  let s1 := fresh "s" in
  let s2 := fresh "s" in
  let E := fresh "E" in
  let Ev := fresh "Ev" in
  let Hs := fresh "Hs" in
  let Hlen := fresh "Hlen" in
  let v := fresh "v" in
  let unp := fresh "unp" in
  let vs := fresh "vs" in
  let w' := fresh "w" in
  apply exec_block_cons_ok in Hrun;
  destruct Hrun as (s1 & E & Hrun);
  apply exec_unpack_ok in E;
  destruct E as (s2 & v & unp & vs & w' & Ev & Htaken & Hs);
  cbv -[react world] in Ev;
  repeat host_ok Ev;
  try discriminate Ev;
  injection Ev as <- <-;
  pose proof (proj1 Htaken) as Hlen;
  repeat (destruct vs as [| ? vs]; [discriminate Hlen |]);
  destruct vs; [| discriminate Hlen];
  clear Hlen;
  cbn [env log] in Hs;
  match type of Hs with
  | context [rev (combine ?xs ?l) ++ ?e] =>
      let r := eval cbv in (rev (combine xs l) ++ e) in
      change (rev (combine xs l) ++ e) with r in Hs
  end;
  rewrite Hs in Hrun; clear Hs;
  cbn [List.length] in Htaken;
  seal_log Hrun.

(** A block [Hpre] that has completed, statement by statement, followed by
    the block [Hrun]. *)
Ltac follow Hpre Hrun :=
  unfold_code Hpre;
  repeat stmt_keep Hpre;
  apply exec_block_nil_ok in Hpre;
  rewrite Hpre in Hrun; clear Hpre.

Ltac follow_last Hrun :=
  unfold_code Hrun;
  repeat stmt_keep Hrun;
  apply exec_block_nil_ok in Hrun;
  subst; cbn [log env].

(** The last block of a run, of which nothing matters. *)
Ltac pass_last Hrun :=
  let added := fresh "added" in
  let new := fresh "new" in
  let w' := fresh "w" in
  let Hs := fresh "Hs" in
  let Hn := fresh "Hn" in
  apply exec_block_passed in Hrun; [| reflexivity];
  destruct Hrun as (added & new & w' & Hs & Hn);
  open_names added Hn;
  subst; cbn [log env app].

(** A piece of the log is what it is said to be. *)
Ltac segment := repeat eexists.

(** The pieces are read off the log. *)
Ltac read_log :=
  refine (conj _ _);
  [| repeat match goal with |- _ /\ _ => split end; first [eassumption | segment] ];
  reflexivity.

(* ----------------------------------------------------------------- *)
(** *** The Evian notebook *)

(** X5: in every run of the Evian notebook, on any host, that completes the
    cell of lines 189-215: the reaction of each mineral is the result of
    [Reaction] for the equation of that mineral and the system; the
    properties are asked of the state that [equilibrate] returned for the
    problem; and what is printed as the saturation index of a mineral is
    [exp] of the difference between [lnReactionQuotient(props).val] and
    [lnEquilibriumConstant(props).val] of the reaction of that same
    mineral. *)
Theorem saturation_indices_follow_each_reaction (H : Host) (w : world H)
    (s : state H) :
  exec_block H (upto 16 eq_evian_water_analysis) (initial H w) = (s, Ok tt) ->
  saturation_indices_reported (log s) (env s).
Proof.
  intros Hrun.
  change (upto 16 eq_evian_water_analysis)
    with (upto 3 eq_evian_water_analysis
          ++ cell_at 3 eq_evian_water_analysis
          ++ cells 4 13 eq_evian_water_analysis
          ++ cells 13 16 eq_evian_water_analysis) in Hrun.
  split_block Hrun H0. split_block Hrun H1. split_block Hrun H2.
  pass H0 H1.
  follow H1 H2.
  pass H2 Hrun.
  follow_last Hrun.
  unfold saturation_indices_reported.
  do 13 eexists. do 17 eexists.
  read_log.
Qed.

Lemma saturation_indices_follow_each_reaction_witness :
  let s := fst (exec_block lab (upto 16 eq_evian_water_analysis) (initial lab lab_start)) in
  saturation_indices_reported (log s) (env s).
Proof.
  intros s.
  apply (saturation_indices_follow_each_reaction lab lab_start s).
  vm_compute. reflexivity.
Defined.



(** X7: in every run of the Evian notebook, on any host, that completes the
    cell of lines 169-170: there is one problem object, built from the
    system; temperature, pressure and water, then each of the eight ions
    (its concentration times 1e-6, divided by the molar mass of the species
    queried from the system the problem was built from), then silica (as
    15 * 1e-3 / 28.0855, computed by the host from left to right), the three
    minerals with amount 0.0 and the pH 7.2 are all set on that object, in
    this order; and [equilibrate] is applied to that object, its result
    being the state that is printed. *)
Theorem equilibrium_is_computed_from_the_assembled_problem (H : Host) (w : world H)
    (s : state H) :
  exec_block H (upto 14 eq_evian_water_analysis) (initial H w) = (s, Ok tt) ->
  inverse_problem_solved (log s) (env s).
Proof.
  intros Hrun.
  change (upto 14 eq_evian_water_analysis)
    with (upto 5 eq_evian_water_analysis
          ++ cells 5 14 eq_evian_water_analysis) in Hrun.
  split_block Hrun H0.
  pass H0 Hrun.
  follow_last Hrun.
  unfold inverse_problem_solved.
  do 3 eexists. do 20 eexists.
  read_log.
Qed.

Lemma equilibrium_is_computed_from_the_assembled_problem_witness :
  let s := fst (exec_block lab (upto 14 eq_evian_water_analysis) (initial lab lab_start)) in
  inverse_problem_solved (log s) (env s).
Proof.
  intros s.
  apply (equilibrium_is_computed_from_the_assembled_problem lab lab_start s).
  vm_compute. reflexivity.
Defined.

(** X8: in every completed run of the Evian notebook, on any host: the
    Phreeqc object built from the database executes the script; [system] is
    rebound to the system built from that object and [state] to the state
    that object gives for this system; the state printed last is this one,
    not the one [equilibrate] returned. *)
Theorem the_last_state_printed_is_phreeqc_s (H : Host) (w : world H) (s : state H) :
  run H eq_evian_water_analysis w = (s, Ok tt) ->
  phreeqc_state_reported (log s) (env s).
Proof.
  unfold run. intros Hrun.
  change (code eq_evian_water_analysis)
    with (upto 19 eq_evian_water_analysis
          ++ cells 19 30 eq_evian_water_analysis) in Hrun.
  split_block Hrun H0.
  pass H0 Hrun.
  follow_last Hrun.
  unfold phreeqc_state_reported.
  do 3 eexists. do 6 eexists.
  read_log.
Qed.

Lemma the_last_state_printed_is_phreeqc_s_witness :
  let s := fst (run lab eq_evian_water_analysis lab_start) in
  phreeqc_state_reported (log s) (env s).
Proof.
  intros s.
  apply (the_last_state_printed_is_phreeqc_s lab lab_start s).
  vm_compute. reflexivity.
Defined.

(* ----------------------------------------------------------------- *)
(** *** The kinetics notebook *)

(** X9: in every run of the kinetics notebook, on any host, that completes
    the cell of lines 108-109: the calls of lines 80-84 form a chain, each
    method being looked up on the object the call before it returned and the
    first on the editor; and [ChemicalSystem] and [ReactionSystem] are both
    applied to that same editor, after the chain. *)
Theorem mineral_reaction_is_defined_by_a_chain (H : Host) (w : world H) (s : state H) :
  exec_block H (upto 8 kin_calcite_hcl) (initial H w) = (s, Ok tt) ->
  mineral_reaction_defined (log s) (env s).
Proof.
  intros Hrun.
  change (upto 8 kin_calcite_hcl)
    with (upto 3 kin_calcite_hcl ++ cells 3 8 kin_calcite_hcl) in Hrun.
  split_block Hrun H0.
  pass H0 Hrun.
  follow_last Hrun.
  unfold mineral_reaction_defined.
  do 7 eexists. do 11 eexists.
  read_log.
Qed.

Lemma mineral_reaction_is_defined_by_a_chain_witness :
  let s := fst (exec_block lab (upto 8 kin_calcite_hcl) (initial lab lab_start)) in
  mineral_reaction_defined (log s) (env s).
Proof.
  intros s.
  apply (mineral_reaction_is_defined_by_a_chain lab lab_start s).
  vm_compute. reflexivity.
Defined.

(** X10: in every run of the kinetics notebook, on any host, that completes
    the cell of lines 287-288: one partition object, built from the system,
    is given to the equilibrium problem and to the kinetic path; the problem
    is built from the system and the path from the reaction system; and
    the file name and the six quantities are given to the output object of
    that path; and [solve] of that path is applied to the state that
    [equilibrate] returned for that problem, on which calcite was set to
    100 g, and to the times 0.0 and 5.0 with the unit minute. *)
Theorem kinetic_path_starts_from_the_equilibrated_state (H : Host) (w : world H)
    (s : state H) :
  exec_block H (upto 22 kin_calcite_hcl) (initial H w) = (s, Ok tt) ->
  kinetic_path_solved (log s) (env s).
Proof.
  intros Hrun.
  change (upto 22 kin_calcite_hcl)
    with (upto 9 kin_calcite_hcl ++ cells 9 22 kin_calcite_hcl) in Hrun.
  split_block Hrun H0.
  pass H0 Hrun.
  follow_last Hrun.
  unfold kinetic_path_solved.
  do 6 eexists. do 15 eexists.
  read_log.
Qed.

Lemma kinetic_path_starts_from_the_equilibrated_state_witness :
  let s := fst (exec_block lab (upto 22 kin_calcite_hcl) (initial lab lab_start)) in
  kinetic_path_solved (log s) (env s).
Proof.
  intros s.
  apply (kinetic_path_starts_from_the_equilibrated_state lab lab_start s).
  vm_compute. reflexivity.
Defined.

(** X11: in every completed run of the kinetics notebook, on any host: the
    data plotted are the [T] attribute of what [numpy.loadtxt] gave for
    results.txt; the result of [numpy.arange(0, 6)] is taken apart into six
    values; [time] is [data] at the first of them; and the curves labelled
    Ca, Calcite, pH, Ca++ and HCO3- are drawn over [time] and show [data] at
    the second, third, sixth, fourth and fifth of them, each in a figure of
    its own except the last two, which share one. *)
Theorem kinetics_curves_show_the_rows_named (H : Host) (w : world H) (s : state H) :
  run H kin_calcite_hcl w = (s, Ok tt) ->
  kinetics_plotted (log s) (env s).
Proof.
  unfold run. intros Hrun.
  change (code kin_calcite_hcl)
    with (upto 25 kin_calcite_hcl
          ++ firstn 2 (cell_at 25 kin_calcite_hcl)
          ++ skipn 2 (cell_at 25 kin_calcite_hcl)
          ++ firstn 3 (cell_at 27 kin_calcite_hcl)
          ++ skipn 3 (cell_at 27 kin_calcite_hcl)
          ++ firstn 2 (cell_at 28 kin_calcite_hcl)
          ++ skipn 2 (cell_at 28 kin_calcite_hcl)
          ++ firstn 2 (cell_at 29 kin_calcite_hcl)
          ++ skipn 2 (cell_at 29 kin_calcite_hcl)
          ++ firstn 3 (cell_at 30 kin_calcite_hcl)
          ++ skipn 3 (cell_at 30 kin_calcite_hcl)) in Hrun.
  split_block Hrun H0. split_block Hrun H1. split_block Hrun H2.
  split_block Hrun H3. split_block Hrun H4. split_block Hrun H5.
  split_block Hrun H6. split_block Hrun H7. split_block Hrun H8.
  split_block Hrun H9.
  pass H0 H1.
  follow H1 H2.
  unfold_code H2. stmt_unpack H2 Htaken.
  apply exec_block_nil_ok in H2. rewrite H2 in H3. clear H2.
  follow H3 H4. pass H4 H5.
  follow H5 H6. pass H6 H7.
  follow H7 H8. pass H8 H9.
  follow H9 Hrun.
  pass_last Hrun.
  unfold kinetics_plotted.
  do 10 eexists. do 17 eexists.
  read_log.
Qed.

Lemma kinetics_curves_show_the_rows_named_witness :
  let s := fst (run lab kin_calcite_hcl lab_start) in
  kinetics_plotted (log s) (env s).
Proof.
  intros s.
  apply (kinetics_curves_show_the_rows_named lab lab_start s).
  vm_compute. reflexivity.
Defined.

(* ----------------------------------------------------------------- *)
(** *** The equilibrium-path notebook *)

(** X12: in every run of the equilibrium-path notebook, on any host, that
    completes the cell of line 200, the operations asked of the host are
    exactly these, in this order: the import, the editor and its two phases,
    the system built from the editor; the initial and the final problem are
    two objects built from the same system and given the same temperature,
    pressure, water and calcium carbonate, the final one alone receiving
    1 mmol of HCl; the file name and the six quantities are given to the
    output object of the path built from that system; [solve] of that path
    is applied to the state equilibrated from the initial problem and the
    state equilibrated from the final problem, in this order; and
    afterwards [path] names what [solve] returned, not the path object. *)
Theorem path_runs_between_the_two_equilibria (H : Host) (w : world H) (s : state H) :
  exec_block H (upto 16 eq_equilibriumpath) (initial H w) = (s, Ok tt) ->
  equilibrium_path_solved (log s) (env s).
Proof.
  intros Hrun.
  follow_last Hrun.
  unfold equilibrium_path_solved.
  do 8 eexists. do 13 eexists.
  read_log.
Qed.

Lemma path_runs_between_the_two_equilibria_witness :
  let s := fst (exec_block lab (upto 16 eq_equilibriumpath) (initial lab lab_start)) in
  equilibrium_path_solved (log s) (env s).
Proof.
  intros s.
  apply (path_runs_between_the_two_equilibria lab lab_start s).
  vm_compute. reflexivity.
Defined.

(** X13: in every completed run of the equilibrium-path notebook, on any
    host: numpy is the module the notebook imported as [np]; the data
    plotted are the [T] attribute of what [np.loadtxt] gave for result.txt;
    the result of [np.arange(6)] is taken apart into six values, the fifth
    of which is [ph_indx]; and each curve shows the rows of [data] at the
    index the variables of line 238 give them: Cl over pH, Ca over Cl,
    CO2(aq) and CO3-- over pH in one figure, Calcite over Cl. *)
Theorem path_curves_show_the_rows_named (H : Host) (w : world H) (s : state H) :
  run H eq_equilibriumpath w = (s, Ok tt) ->
  equilibrium_path_plotted (log s) (env s).
Proof.
  unfold run. intros Hrun.
  change (code eq_equilibriumpath)
    with (upto 17 eq_equilibriumpath
          ++ (cell_at 17 eq_equilibriumpath ++ firstn 2 (cell_at 19 eq_equilibriumpath))
          ++ skipn 2 (cell_at 19 eq_equilibriumpath)
          ++ firstn 2 (cell_at 21 eq_equilibriumpath)
          ++ skipn 2 (cell_at 21 eq_equilibriumpath)
          ++ firstn 2 (cell_at 23 eq_equilibriumpath)
          ++ skipn 2 (cell_at 23 eq_equilibriumpath)
          ++ firstn 3 (cell_at 25 eq_equilibriumpath)
          ++ skipn 3 (cell_at 25 eq_equilibriumpath)
          ++ firstn 2 (cell_at 27 eq_equilibriumpath)
          ++ skipn 2 (cell_at 27 eq_equilibriumpath)) in Hrun.
  split_block Hrun H0. split_block Hrun H1. split_block Hrun H2.
  split_block Hrun H3. split_block Hrun H4. split_block Hrun H5.
  split_block Hrun H6. split_block Hrun H7. split_block Hrun H8.
  split_block Hrun H9.
  pass H0 H1.
  follow H1 H2.
  unfold_code H2. stmt_unpack H2 Htaken.
  apply exec_block_nil_ok in H2. rewrite H2 in H3. clear H2.
  follow H3 H4. pass H4 H5.
  follow H5 H6. pass H6 H7.
  follow H7 H8. pass H8 H9.
  follow H9 Hrun.
  pass_last Hrun.
  unfold equilibrium_path_plotted.
  do 10 eexists. do 17 eexists.
  read_log.
Qed.

Lemma path_curves_show_the_rows_named_witness :
  let s := fst (run lab eq_equilibriumpath lab_start) in
  equilibrium_path_plotted (log s) (env s).
Proof.
  intros s.
  apply (path_curves_show_the_rows_named lab lab_start s).
  vm_compute. reflexivity.
Defined.

(* ----------------------------------------------------------------- *)
(** *** The sodium-chloride notebook *)

(** A value on which the statement [E] depends, case by case. *)
Ltac value_case E :=
  match type of E with
  | context [match ?r with
             | VNone => _ | VInt _ => _ | VFloat _ => _ | VStr _ => _
             | VList _ => _ | VTuple _ => _ | VSliceAll => _ | VObj _ => _
             end] =>
      is_var r; destruct r
  end;
  cbv -[react world] in E; try discriminate E.

Ltac read_amount formatted :=
  refine (conj _ _);
  [| repeat match goal with |- _ /\ _ => split end;
     first [ match goal with
             | |- amount_reported _ _ _ _ =>
                 unfold amount_reported; do 5 eexists;
                 split; [reflexivity | split; [reflexivity | formatted]]
             end
           | segment ] ];
  reflexivity.

(** X14: in every completed run of the sodium-chloride notebook, on any
    host, the operations asked of the host are exactly these, in this
    order: the import, the database, the editor built from it, its two
    phases, the system built from the editor; the system is printed before
    the problem is built from it; the
    kilogram of salt of line 169 is added to the very problem object that
    was equilibrated at line 134, already holding 1.0 kg of water and 1.0 mg
    of salt, and this object is equilibrated again; [state] then names the
    second result, which is the state printed at line 171 and the one whose
    amount of Halite line 188 reports: the amount is asked once, formatted
    by the host unless it is a string, and printed after the label. *)
Theorem salt_is_added_to_the_same_problem (H : Host) (w : world H) (s : state H) :
  run H eq_sodium_chloride_solubility_in_water w = (s, Ok tt) ->
  salt_dissolved (log s) (env s).
Proof.
  unfold run. intros Hrun.
  change (code eq_sodium_chloride_solubility_in_water)
    with (upto 19 eq_sodium_chloride_solubility_in_water
          ++ cell_at 19 eq_sodium_chloride_solubility_in_water) in Hrun.
  split_block Hrun H0.
  follow H0 Hrun.
  unfold_code Hrun.
  apply exec_block_cons_ok in Hrun. destruct Hrun as (sl & E & Hrun).
  apply exec_block_nil_ok in Hrun.
  cbv -[react world] in E.
  repeat host_ok E.
  value_case E; repeat host_ok E;
    try (value_case E; repeat host_ok E);
    injection E as <-;
    subst; cbn [log env];
    unfold salt_dissolved;
    do 6 eexists; do 20 eexists;
    first [ solve [read_amount ltac:(left; split; reflexivity)]
          | solve [read_amount ltac:(right; reflexivity)] ].
Qed.

Lemma salt_is_added_to_the_same_problem_witness :
  let s := fst (run lab eq_sodium_chloride_solubility_in_water lab_start) in
  salt_dissolved (log s) (env s).
Proof.
  intros s.
  apply (salt_is_added_to_the_same_problem lab lab_start s).
  vm_compute. reflexivity.
Defined.

End Cells.

Import Cells.

(* ================================================================= *)
(** ** From the registered quantities to the curves *)

Module Columns.



End Columns.
